(* ===== verification/_CoqProject ===== *)
-Q . S2P
Prelude.v
Js.v
Theme.v
ChatRoom.v
ChatSpec.v
MailSubmission.v
App.v
AppProgress.v
System.v
Shell.v
