(* ===== verification/Prelude.v ===== *)
(** * A verification development of nesxt-chat

    nesxt-chat is a Next.js chat client: every message, login and
    registration is handled by an external server, and the client's logic is
    the state its React components keep and the order in which events,
    effects and asynchronous answers change it.

    ** The program's parts and how they interact

    - The application shell, [src/pages/_app.tsx] ([MyApp]), keeps the colour
      theme (persisted in [localStorage]), the authentication status
      ("user" | "guest") obtained by sending a bearer token (from
      [sessionStorage] or the [?token=] query) to [/user/login], and a
      socket.io connection opened while the user is a "user".  It hands the
      socket to the pages through [SocketContext] and the theme through
      [ThemeContext].
    - The global chat room, [src/components/ChatRoom/ChatRoom.tsx], fetches
      the messages once from [/chat], replaces them on every
      ["receive_message"] broadcast, appends the user's submissions
      optimistically and emits them as ["send_message"] on the context's
      socket, and drives two scroll buttons from the scroll offset.
    - The registration form, [src/components/MailSubmission/MailSubmission.tsx],
      validates an email with a yup schema, posts it to [/user/register],
      and can be filled by a Google sign-in.
    - The themed primitives, [src/components/Themed/*.tsx], choose a button
      variant from [ThemeContext].

    ** Files, in dependency order

    - [Prelude] (this file): the scope [chat_scope] with the notation
      [s -[ f ]->* es] for [run] (the left fold of a handler over events),
      the execution lemmas ([run_app], [run_invariant],
      [run_invariant_Forall], [run_establish]), the tactics [case_ifs] and
      [case_ifs_in], and the hint databases [chat] and [chat_rw].
    - [Js]: the JavaScript and Web semantics the code relies on: truthiness
      of a [string | null], [indexOf] (with its -1), [substring] (with its
      clamping), [includes], and [Storage] as a stdpp [gmap].
    - [Theme] (Modules [Theme], [Themed]): the theme part of [MyApp]
      ([toggleChangeTheme], the mount effect [bootstrapTheme], the
      persistence effect [persistTheme], [GlobalStyles]) as a deterministic
      [step] on [{theme; local}], and the themed buttons' [variant].
    - [ChatRoom] (Modules [Message], [ChatRoom]): the chat room's state
      record, one definition per handler ([onSubmit], [handleScrollView],
      [onReceive], [fetchStart]/[fetchOk]), the dispatcher [step], whose
      first argument is the socket of the context, and [render].
    - [ChatSpec] (Module [ChatSpec]): what the chat room promises, as a
      function [from_history] of the events it has seen, latest first, and
      the reference definition [before_at] of the sender label.
    - [MailSubmission] (Module [MailSubmission], Section [WithSchema] over an
      [EmailSchema] record of the validator and its [required()] law): the
      form's setters and handlers, and the step relation [mstep] whose
      guards are the disabled submit button and the request in flight,
      and the rendered [FormView].
    - [App] (Module [App]): the token effect [authEffect], [authenticate] as
      [onLogin] on each kind of answer, and the socket effect
      [socketEffect] with its [cleanup], as the step relation [mstep] in
      which the environment answers the requests in flight in any order.
    - [AppProgress] (Module [AppProgress]): a measure on the shell's state
      (effect runs still possible, requests they can send, requests in
      flight) that every step of [App.mstep] decreases.
    - [System] (Module [System]): the shell and the chat room together.  The
      typeclass [SocketContext] states what a provider offers its consumers
      (the socket, whether it is open); [App_SocketContext] is the shell's
      instance; [sstep] interleaves the shell's steps with the chat room's
      events.
    - [Shell] (Module [Shell]): what [MyApp] renders ([renderApp]): the
      two context values, [GlobalStyles] when the theme is set, and the
      page's props.

    Both react-hook-form forms keep two values per field: the form
    library's value, which [handleSubmit] validates and sends, and the text
    the DOM input shows.  [formRef.current.reset()] is the DOM form's reset
    and only clears the second (react-hook-form v7: [register] is spread
    into the input and the errors come from [formState]).

    ** The theorems

    - Chat room, refinement: every run of the handlers from mount ends in
      the state its history dictates ([step_refines_history]); the sender
      label equals the part of the email before its first [@]
      ([senderLabel_before_at]).
    - Chat room: the effect of a submission and of its [required] guard
      ([onSubmit_appends], [onSubmit_required], [resubmit_after_reset]);
      broadcasts ([onReceive_replaces]); the invariant that the list is
      confirmed messages followed by pending placeholders
      ([echo_shape_run]); the last replacement wins
      ([snapshot_then_placeholders]); the spinner lasts until a successful
      fetch ([spinner_until_fetchOk]); the scroll buttons
      ([scrollViewFor_spec], [scroll_some_button]); the sender label
      ([senderLabel_local], [senderLabel_no_at]); no emission without a
      socket ([no_socket_no_emit]).
    - Registration form, by rule induction on [reachable]: the spinner is on
      exactly while a request is in flight ([loading_iff_pending]),
      requests never overlap ([no_overlapping_requests]), only validated
      emails are posted ([requests_validated]); each answer
      ([onRegisterStatus_spec]), an invalid submission
      ([onSubmit_invalid]), resubmission after a reset
      ([resubmit_after_success]), and the Google help text hidden behind a
      stale error ([google_hidden_by_error]).
    - Theme: storage round trip ([persist_bootstrap_roundtrip]), reload
      ([reload_restores_theme]), fallback ([bootstrap_dark_iff]), toggle
      ([toggle_spec]), soundness of the [as ITheme] cast
      ([bootstrap_cast_sound]), buttons agree with the page colours
      ([variant_matches_styles]), in every render of the shell and before
      the mount effect ([themed_buttons_follow_styles]).
    - Shell: the socket invariant ([socket_invariant]), the closed socket
      left in the context after a logout ([stale_socket_after_logout]), the
      three kinds of login answers ([login_accepts_non401],
      [login_401_logs_out], [network_error_keeps_token]), sockets opened
      only by an accepted login ([socket_opened_by_login]), and the race
      that deletes an accepted token ([accepted_token_lost]).
    - Shell, termination and bounds: no infinite execution
      ([mstep_terminates]), at most five events after a page load
      ([load_executions_bounded]), at most three login requests in flight
      ([inflight_at_most_three]).
    - System: messages sent while logged in are delivered
      ([submit_while_user_delivered]); after a logout they go to the closed
      socket ([submit_after_logout_lost]).

    Each theorem with hypotheses has a witness that applies it to a
    concrete state ([..._witness], closed with [Defined]).

    ** Bounds and fuel

    No handler loops.  The only recursive functions are structural:
    [index_of], [has_char] and [before_at] recurse on strings,
    [remove_one] and the history functions of [ChatSpec] on lists.  No
    fuel is needed.  The one feedback loop of the program, the token
    effect rerun by [router.replace], is shown finite by a measure bounded
    by 5 at a page load ([AppProgress]).  Scroll offsets and statuses are unbounded integers
    ([Z]), since JavaScript numbers stay exact far beyond the pixel offsets
    and HTTP statuses involved.  Pixel offsets are taken to be whole
    numbers.

    ** Not modelled

    The server side (its answers are the environment's choices);
    rendering-only code ([scrollIntoView], the moment time format, Chakra
    layout, [ThemedInput], which only passes its props to Chakra's
    [Input], the providers); the libraries (yup's email
    rule, which is a parameter; the Google OAuth popup; socket.io's
    transport).  [ITheme] and the palettes come from [src/context], which is
    not among the sources.  [ITheme] is modelled from the spec and the
    palettes are parameters.

    ** Plan for the next sittings

    Model the ["receive_message"] listeners that the chat room registers on
    every socket change and never removes.  Split the Google sign-in into
    the click, which the disabled button guards, and the popup's answer.
    Bring the theme into [System], so that one execution covers the whole
    page. *)

From stdpp Require Import base list gmap strings.
From Stdlib Require Import ZArith Lia.

Declare Scope chat_scope.
Delimit Scope chat_scope with chat.
Open Scope chat_scope.

Create HintDb chat discriminated.
Create Rewrite HintDb chat_rw.

(** ** Executions of a deterministic handler

    A React component reacts to one event at a time: the state it holds after
    a sequence of events is the left fold of its handler over the sequence. *)

Section Run.
Context {S E : Type}.

Definition run (step : S -> E -> S) (s : S) (es : list E) : S :=
  fold_left step es s.

Lemma run_nil (step : S -> E -> S) s : run step s [] = s.
Proof. reflexivity. Qed.

Lemma run_cons (step : S -> E -> S) s e es :
  run step s (e :: es) = run step (step s e) es.
Proof. reflexivity. Qed.

Lemma run_app (step : S -> E -> S) s es1 es2 :
  run step s (es1 ++ es2) = run step (run step s es1) es2.
Proof. unfold run. apply fold_left_app. Qed.

Lemma run_snoc (step : S -> E -> S) s es e :
  run step s (es ++ [e]) = step (run step s es) e.
Proof. by rewrite run_app. Qed.

(** An invariant of every single step holds after every execution. *)
Lemma run_invariant (step : S -> E -> S) (P : S -> Prop) :
  (forall s e, P s -> P (step s e)) ->
  forall es s, P s -> P (run step s es).
Proof. intros Hstep es. induction es as [|e es IH]; simpl; auto. Qed.

(** An invariant of the steps of a class of events holds after every
    execution made of events of that class. *)
Lemma run_invariant_Forall (step : S -> E -> S) (P : S -> Prop) (G : E -> Prop) :
  (forall s e, G e -> P s -> P (step s e)) ->
  forall es s, Forall G es -> P s -> P (run step s es).
Proof.
  intros Hstep es s HG. revert s.
  induction HG as [|e es He Hes IH]; intros s Hs; simpl; auto.
Qed.

(** A property that every event of a class establishes, and that every
    other event preserves, holds after any execution that contains an
    event of the class. *)
Lemma run_establish (step : S -> E -> S) (P : S -> Prop) (G : E -> Prop) :
  (forall s e, G e -> P (step s e)) ->
  (forall s e, P s -> P (step s e)) ->
  forall es1 e es2 s, G e -> P (run step s (es1 ++ e :: es2)).
Proof.
  intros Hest Hpres es1 e es2 s HG.
  rewrite run_app, run_cons. apply run_invariant; auto.
Qed.
End Run.

Notation "s -[ f ]->* es" := (run f s es)
  (at level 70, f at level 200, es at level 200, no associativity) : chat_scope.

#[export] Hint Rewrite @run_nil @run_cons @run_app : chat_rw.

(** ** Tactics *)

(** Split every [if] of the goal, remembering the test. *)
Ltac case_ifs :=
  repeat match goal with
         | |- context [if ?b then _ else _] =>
             let E := fresh "Eif" in destruct b eqn:E
         end.

(** Split every [if] of a hypothesis [H]. *)
Ltac case_ifs_in H :=
  repeat match type of H with
         | context [if ?b then _ else _] =>
             let E := fresh "Eif" in destruct b eqn:E
         end.

(** ** Shared lemmas on lists and options *)

Lemma Forall_snoc {A} (P : A -> Prop) (l : list A) x :
  Forall P (l ++ [x]) <-> Forall P l /\ P x.
Proof. rewrite Forall_app, Forall_singleton. tauto. Qed.

Lemma last_snoc {A} (l : list A) x : last (l ++ [x]) = Some x.
Proof. by rewrite last_app. Qed.

#[export] Hint Resolve Forall_nil_2 : chat.
#[export] Hint Rewrite @length_app @length_map @last_snoc : chat_rw.
