(* ===== verification/Js.v ===== *)
(** * JavaScript and Web-platform semantics used by the components

    The components call a handful of built-ins whose corner cases decide their
    behaviour: the truthiness test of a [string | null] (an empty string is
    falsy), [String.prototype.indexOf] (which answers [-1] when the pattern is
    absent), [String.prototype.substring] (which clamps both arguments into
    [0, length] and swaps them when they are out of order),
    [Array.prototype.includes] on strings, and the Web [Storage] objects
    ([localStorage], [sessionStorage]).  Strings are modelled as Rocq
    [string]s of 8-bit characters (JavaScript counts UTF-16 code units; the
    two agree on the ASCII text these components handle). *)

From stdpp Require Import base list gmap strings.
From Stdlib Require Import ZArith Lia Ascii.
From S2P Require Import Prelude.

Open Scope string_scope.

(** ** Truthiness of [string | null] *)

Definition js_truthy (o : option string) : bool :=
  match o with
  | Some s => negb (String.eqb s "")
  | None => false
  end.

(** ** [String.prototype.indexOf] *)

Fixpoint index_of (pat s : string) : option nat :=
  if String.prefix pat s then Some 0
  else match s with
       | EmptyString => None
       | String _ s' => S <$> index_of pat s'
       end.

Definition js_indexOf (s pat : string) : Z :=
  match index_of pat s with
  | Some n => Z.of_nat n
  | None => (-1)%Z
  end.

(** Whether a character occurs in a string. *)
Fixpoint has_char (c : ascii) (s : string) : bool :=
  match s with
  | EmptyString => false
  | String d s' => Ascii.eqb c d || has_char c s'
  end.

(** ** [String.prototype.substring] *)

Definition js_clamp (len : nat) (x : Z) : nat :=
  Z.to_nat (Z.min (Z.max x 0) (Z.of_nat len)).

Definition js_substring (s : string) (a b : Z) : string :=
  let fa := js_clamp (String.length s) a in
  let fb := js_clamp (String.length s) b in
  String.substring (Nat.min fa fb) (Nat.max fa fb - Nat.min fa fb) s.

(** ** [Array.prototype.includes] on an array of strings *)

Definition js_includes (l : list string) (s : string) : bool :=
  existsb (String.eqb s) l.

(** ** Web [Storage] *)

Abbreviation Storage := (gmap string string).

Definition getItem (k : string) (st : Storage) : option string := st !! k.
Definition setItem (k v : string) (st : Storage) : Storage := <[k:=v]> st.
Definition removeItem (k : string) (st : Storage) : Storage := delete k st.

(** ** Lemmas *)

Lemma prefix_char c d s :
  String.prefix (String c "") (String d s) = Ascii.eqb c d.
Proof.
  simpl. destruct (ascii_dec c d) as [->|Hne].
  - rewrite Ascii.eqb_refl. by destruct s.
  - symmetry. by apply Ascii.eqb_neq.
Qed.

Lemma index_of_char_cons c d s :
  index_of (String c "") (String d s) =
  if Ascii.eqb c d then Some 0 else S <$> index_of (String c "") s.
Proof. rewrite <- (prefix_char c d s). reflexivity. Qed.

Lemma index_of_char_absent c s :
  has_char c s = false -> index_of (String c "") s = None.
Proof.
  induction s as [|d s IH]; [done|].
  rewrite index_of_char_cons. simpl.
  intros [Hcd Hs]%orb_false_iff. rewrite Hcd, IH; done.
Qed.

Lemma index_of_char_first c l r :
  has_char c l = false ->
  index_of (String c "") (l +:+ String c r) = Some (String.length l).
Proof.
  induction l as [|d l IH]; intros Hl.
  - change ("" +:+ String c r) with (String c r).
    rewrite index_of_char_cons. by rewrite Ascii.eqb_refl.
  - simpl in Hl. apply orb_false_iff in Hl as [Hcd Hl].
    change (String d l +:+ String c r) with (String d (l +:+ String c r)).
    rewrite index_of_char_cons, Hcd, IH; done.
Qed.

Lemma js_indexOf_absent c s :
  has_char c s = false -> js_indexOf s (String c "") = (-1)%Z.
Proof. intros H. unfold js_indexOf. by rewrite index_of_char_absent. Qed.

Lemma js_indexOf_first c l r :
  has_char c l = false ->
  js_indexOf (l +:+ String c r) (String c "") = Z.of_nat (String.length l).
Proof. intros H. unfold js_indexOf. by rewrite index_of_char_first. Qed.

Lemma string_length_append s t :
  String.length (s +:+ t) = String.length s + String.length t.
Proof. induction s; simpl; auto. Qed.

Lemma substring_0_prefix l r :
  String.substring 0 (String.length l) (l +:+ r) = l.
Proof. induction l as [|c l IH]; simpl; [by destruct r | by rewrite IH]. Qed.

Lemma substring_0_0 s : String.substring 0 0 s = "".
Proof. by destruct s. Qed.

Lemma js_clamp_in len x :
  (0 <= x <= Z.of_nat len)%Z -> js_clamp len x = Z.to_nat x.
Proof. intros H. unfold js_clamp. f_equal. lia. Qed.

Lemma js_clamp_neg len x : (x <= 0)%Z -> js_clamp len x = 0.
Proof. intros H. unfold js_clamp. lia. Qed.

(** [substring(0, n)] with [n] in range is the prefix of length [n]. *)
Lemma js_substring_0_in s n :
  (0 <= n <= Z.of_nat (String.length s))%Z ->
  js_substring s 0 n = String.substring 0 (Z.to_nat n) s.
Proof.
  intros H. unfold js_substring.
  rewrite (js_clamp_neg _ 0), (js_clamp_in _ n) by lia.
  by rewrite Nat.min_0_l, Nat.max_0_l, Nat.sub_0_r.
Qed.

(** [substring(0, n)] with [n] negative is empty (the [-1] of a failed
    [indexOf] is clamped to [0]). *)
Lemma js_substring_0_neg s n : (n <= 0)%Z -> js_substring s 0 n = "".
Proof.
  intros H. unfold js_substring.
  rewrite !js_clamp_neg by lia. apply substring_0_0.
Qed.

Lemma getItem_setItem k v st : getItem k (setItem k v st) = Some v.
Proof. apply lookup_insert_eq. Qed.

Lemma getItem_removeItem k st : getItem k (removeItem k st) = None.
Proof. apply lookup_delete_eq. Qed.

Lemma getItem_setItem_ne k k' v st :
  k <> k' -> getItem k' (setItem k v st) = getItem k' st.
Proof. apply lookup_insert_ne. Qed.

#[export] Hint Rewrite getItem_setItem getItem_removeItem : chat_rw.
#[export] Hint Rewrite string_length_append : chat_rw.
