(* ===== verification/Theme.v ===== *)
(** * The colour theme ([src/pages/_app.tsx]) and the themed primitives
    ([src/components/Themed/*.tsx])

    [MyApp] keeps [theme : ITheme | null] in React state (line 31).  Three
    pieces of code touch it:

    - [toggleChangeTheme] (lines 44-46), handed to the pages;
    - the mount effect (lines 99-106), which reads [localStorage["Theme"]]
      and keeps it when it is ["dark"] or ["light"], and otherwise chooses
      ["light"];
    - the effect on [[theme]] (lines 95-97), which writes a non-null theme
      back to [localStorage].

    [GlobalStyles] (lines 13-24) picks the page colours, and [ThemedButton]
    and [ThemedIconButton] pick their Chakra variant, from the theme.  The
    type [ITheme] and the two palettes are declared in
    [src/context/ThemeContext], which is not among the sources: [ITheme] is
    the union ["dark" | "light"] the code tests against, and the palettes
    are parameters (a Section [Context]).  An effect runs after the render
    that changed one of its dependencies; [setTheme] with the current value
    changes nothing and runs no effect. *)

From stdpp Require Import base list gmap strings.
From Stdlib Require Import ZArith Lia.
From S2P Require Import Prelude Js.

Open Scope string_scope.
Open Scope list_scope.

Module Theme.

(** [ITheme] of [src/context/ThemeContext]. *)
Inductive ITheme := Light | Dark.

#[export] Instance ITheme_eq_dec : EqDecision ITheme.
Proof. solve_decision. Defined.

Definition theme_string (t : ITheme) : string :=
  match t with Light => "light" | Dark => "dark" end.

(** [toggleChangeTheme] (lines 44-46):
    [oldState === "light" ? "dark" : "light"]. *)
Definition toggleChangeTheme (old : option ITheme) : option ITheme :=
  if decide (old = Some Light) then Some Dark else Some Light.

(** The mount effect (lines 99-106). *)
Definition bootstrapTheme (local : Storage) : ITheme :=
  match getItem "Theme" local with
  | Some s =>
      if js_truthy (Some s) && js_includes ["dark"; "light"] s
      then (if String.eqb s "dark" then Dark else Light)
      else Light
  | None => Light
  end.

(** The effect on [[theme]] (lines 95-97). *)
Definition persistTheme (theme : option ITheme) (local : Storage) : Storage :=
  match theme with
  | Some t => setItem "Theme" (theme_string t) local
  | None => local
  end.

(** The theme part of [MyApp]'s state, with the [localStorage] it owns. *)
Record State := mkState { theme : option ITheme; local : Storage }.

(** [setTheme] followed by the effects it triggers. *)
Definition setTheme (t : option ITheme) (s : State) : State :=
  if decide (t = theme s) then s
  else {| theme := t; local := persistTheme t (local s) |}.

Inductive Event := Mount | Toggle.

Definition step (s : State) (e : Event) : State :=
  match e with
  | Mount => setTheme (Some (bootstrapTheme (local s))) s
  | Toggle => setTheme (toggleChangeTheme (theme s)) s
  end.

(** A page load: [theme] starts at [null] over the stored [localStorage]. *)
Definition load (local : Storage) : State := {| theme := None; local := local |}.

(** [GlobalStyles] (lines 13-24): the colours of [body] and [html]. *)
Record Palette := mkPalette { body : string; text : string }.

Section Styles.
Context (darkTheme lightTheme : Palette).

Definition globalStyles (t : ITheme) : Palette :=
  if decide (t = Dark) then darkTheme else lightTheme.

End Styles.

(** ** Lemmas *)

(** The stored theme agrees with the theme in state. *)
Definition persisted (s : State) : Prop :=
  forall t, theme s = Some t -> getItem "Theme" (local s) = Some (theme_string t).

Lemma bootstrap_stored local t :
  getItem "Theme" local = Some (theme_string t) -> bootstrapTheme local = t.
Proof. intros H. unfold bootstrapTheme. rewrite H. by destruct t. Qed.

Lemma setTheme_persisted t s : persisted s -> persisted (setTheme t s).
Proof.
  intros Hp t' Ht'. unfold setTheme in *. case_decide; [by apply Hp|].
  simpl in *. subst t. apply getItem_setItem.
Qed.

Lemma step_persisted s e : persisted s -> persisted (step s e).
Proof. destruct e; apply setTheme_persisted. Qed.

Lemma run_persisted l es : persisted (run step (load l) es).
Proof. apply run_invariant; [apply step_persisted|]. by intros t. Qed.

(** ** Properties *)

(** C23: a theme written by the persistence
    effect is read back unchanged by the mount effect. *)
Theorem persist_bootstrap_roundtrip t local :
  bootstrapTheme (persistTheme (Some t) local) = t.
Proof. apply bootstrap_stored, getItem_setItem. Qed.

(** C30: the mount effect chooses the dark theme
    exactly when [localStorage] holds ["dark"]; a missing, empty or
    unknown value falls back to the light theme. *)
Theorem bootstrap_dark_iff local :
  bootstrapTheme local = Dark <-> getItem "Theme" local = Some "dark".
Proof.
  unfold bootstrapTheme. destruct (getItem "Theme" local) as [v|]; [|done].
  split.
  - case_ifs; try discriminate. by intros _; apply String.eqb_eq in Eif0 as ->.
  - intros [= ->]. reflexivity.
Qed.

(** C32: toggling flips a set theme and is its own inverse on
    it; toggling before the mount effect (theme [null]) gives light. *)
Theorem toggle_spec t :
  toggleChangeTheme (toggleChangeTheme (Some t)) = Some t /\
  toggleChangeTheme (Some t) <> Some t /\
  toggleChangeTheme None = Some Light.
Proof. by destruct t. Qed.

(** C31: the cast [localTheme as ITheme] of line 102 is sound: when the
    mount effect keeps the stored value (truthy and one of ["dark"],
    ["light"]), the theme it sets is the one that value names; any other
    stored value gives the light theme. *)
Theorem bootstrap_cast_sound local v :
  getItem "Theme" local = Some v ->
  (js_truthy (Some v) && js_includes ["dark"; "light"] v = true ->
   theme_string (bootstrapTheme local) = v) /\
  (js_truthy (Some v) && js_includes ["dark"; "light"] v = false ->
   bootstrapTheme local = Light).
Proof.
  intros Hv. unfold bootstrapTheme. rewrite Hv. split; intros Hb; rewrite Hb; [|done].
  apply andb_true_iff in Hb as [_ Hin]. unfold js_includes in Hin. simpl in Hin.
  rewrite orb_false_r in Hin.
  by apply orb_true_iff in Hin as [->%String.eqb_eq | ->%String.eqb_eq].
Qed.

(** C22: whatever the user did in a session, a new
    page load over the same [localStorage] comes back with the theme the
    session ended with. *)
Theorem reload_restores_theme l es t :
  theme (run step (load l) es) = Some t ->
  theme (run step (load (local (run step (load l) es))) [Mount]) = Some t.
Proof.
  intros Ht. simpl. unfold setTheme. simpl.
  rewrite (bootstrap_stored _ t) by (by apply run_persisted).
  by try case_decide.
Qed.

Lemma bootstrap_cast_sound_witness :
  theme_string (bootstrapTheme (<["Theme" := "dark"]> ∅)) = "dark".
Proof.
  apply (bootstrap_cast_sound (<["Theme" := "dark"]> ∅) "dark"); reflexivity.
Defined.

Lemma reload_restores_theme_witness :
  theme (run step (load ∅) [Mount; Toggle]) = Some Dark /\
  theme (run step (load (local (run step (load ∅) [Mount; Toggle]))) [Mount]) = Some Dark.
Proof.
  split; [reflexivity|].
  apply (reload_restores_theme ∅ [Mount; Toggle] Dark). reflexivity.
Defined.

End Theme.

Module Themed.
Import Theme.

Inductive Variant := Outline | Solid.

(** [ThemedButton] (ThemedButton.tsx lines 9-16) and [ThemedIconButton]
    (ThemedIconButton.tsx lines 5-10): [theme === "dark" ? "outline" : "solid"]
    with the theme of [ThemeContext], [null] before the mount effect. *)
Definition variant (theme : option ITheme) : Variant :=
  if decide (theme = Some Dark) then Outline else Solid.

(** [ThemedIconButton] (ThemedIconButton.tsx lines 5-10): the same test on
    the theme of [ThemeContext], for an [IconButton]. *)
Definition iconVariant (theme : option ITheme) : Variant :=
  if decide (theme = Some Dark) then Outline else Solid.



End Themed.
