(* ===== verification/ChatRoom.v ===== *)
(** * The global chat room ([src/components/ChatRoom/ChatRoom.tsx])

    [ChatRoom] holds, in React state, the list of [messages], a [loading]
    flag, the visibility of the two scroll buttons ([scrollView]) and,
    through react-hook-form, the text of the chat input.  Its handlers:

    - [onSubmit] (lines 54-69): guarded by the [required] rule of the
      input, appends an optimistic copy of the text (flagged [loading]),
      resets the form and emits ["send_message"] on the socket of
      [SocketContext], when there is one;
    - [handleScrollView] (lines 71-83): decides the scroll buttons from
      [scrollTop] and the number of messages;
    - the ["receive_message"] listener (lines 85-93): replaces the whole
      list with the broadcast, clearing every [loading] flag;
    - [fetchGlobalChat] (lines 95-120): sets [loading], fetches [/chat] and,
      on success, clears [loading] and replaces the list; on any failure the
      [catch] is empty.

    The asynchronous fetch is split into its start and its two completions,
    so that it can interleave with the other events.  The socket emissions
    are recorded in an [outbox] (a trace of the effects on the socket), and
    the socket of the context is a parameter of every step.  The rendering
    (lines 130-227) is modelled as a function from the state to a view. *)

From stdpp Require Import base list gmap strings.
From Stdlib Require Import ZArith Lia Ascii.
From S2P Require Import Prelude Js.

Open Scope string_scope.
Open Scope list_scope.

(** ** Messages (lines 20-27) *)
Module Message.
Record t := mk {
  message : string;
  time : Z;
  email : string;
  loading : bool;
  avatar : string;
  name : string
}.
End Message.

Module ChatRoom.

(** A socket, as [SocketContext] provides it: an identifier. *)
Definition SocketId := nat.

Record ScrollView := mkScrollView { top : bool; bottom : bool }.

Record State := mkState {
  messages : list Message.t;
  loading : bool;
  scrollView : ScrollView;
  chat : string;          (** react-hook-form's value of the field "chat" *)
  inputText : string;     (** the text the DOM input shows *)
  outbox : list (SocketId * string)   (** the ["send_message"] emissions *)
}.

(** The state on mount (lines 30-39, 51). *)
Definition init : State :=
  {| messages := []; loading := false;
     scrollView := {| top := false; bottom := false |};
     chat := ""; inputText := ""; outbox := [] |}.

(** The optimistic copy of a submitted text (lines 57-64); [now] is the
    value of [new Date()]. *)
Definition optimistic (text : string) (now : Z) : Message.t :=
  {| Message.message := text; Message.email := ""; Message.time := now;
     Message.loading := true; Message.avatar := ""; Message.name := "" |}.

(** [{ ...item, loading: false }] (lines 87-90 and 110-113). *)
Definition received (m : Message.t) : Message.t :=
  {| Message.message := Message.message m; Message.time := Message.time m;
     Message.email := Message.email m; Message.loading := false;
     Message.avatar := Message.avatar m; Message.name := Message.name m |}.

(** [onSubmit] (lines 54-69), with the [required: true] rule of the input
    (line 221): [handleSubmit] runs the callback only when the field's value
    is not empty.  [formRef.current.reset()] is the DOM form's own reset: it
    empties the text the input shows, and react-hook-form, which keeps the
    value it last received from the input's [onChange], does not see it. *)
Definition onSubmit (socket : option SocketId) (now : Z) (s : State) : State :=
  if String.eqb (chat s) "" then s
  else {| messages := messages s ++ [optimistic (chat s) now];
          loading := loading s;
          scrollView := scrollView s;
          chat := chat s;
          inputText := "";
          outbox := outbox s ++ match socket with
                                | Some id => [(id, chat s)]
                                | None => []
                                end |}.

(** The scroll buttons for an offset (lines 71-83). *)
Definition scrollViewFor (n_messages : nat) (scrollTop : Z) : ScrollView :=
  let bottomDistance := (90 * (Z.of_nat n_messages - 10) - scrollTop)%Z in
  if (bottomDistance <? 20)%Z then {| top := true; bottom := false |}
  else if (scrollTop =? 0)%Z then {| top := false; bottom := true |}
  else {| top := true; bottom := true |}.

Definition handleScrollView (scrollTop : Z) (s : State) : State :=
  {| messages := messages s; loading := loading s;
     scrollView := scrollViewFor (length (messages s)) scrollTop;
     chat := chat s; inputText := inputText s; outbox := outbox s |}.

(** The ["receive_message"] listener (lines 85-93). *)
Definition onReceive (data : list Message.t) (s : State) : State :=
  {| messages := map received data; loading := loading s;
     scrollView := scrollView s; chat := chat s; inputText := inputText s; outbox := outbox s |}.

(** [fetchGlobalChat] (lines 95-120): its start ([setLoading(true)]) and
    its completion with the response data.  A failed fetch, a body that is
    not JSON and a body that is not an array all throw, and the empty
    [catch] leaves the state as it is. *)
Definition fetchStart (s : State) : State :=
  {| messages := messages s; loading := true;
     scrollView := scrollView s; chat := chat s; inputText := inputText s; outbox := outbox s |}.

Definition fetchOk (data : list Message.t) (s : State) : State :=
  {| messages := map received data; loading := false;
     scrollView := scrollView s; chat := chat s; inputText := inputText s; outbox := outbox s |}.

(** Typing into the input: the [onChange] of [register("chat")] (line 221)
    stores the new text as the field's value. *)
Definition setChat (v : string) (s : State) : State :=
  {| messages := messages s; loading := loading s;
     scrollView := scrollView s; chat := v; inputText := v; outbox := outbox s |}.

Inductive Event :=
| Input (v : string)
| Submit (now : Z)
| Scroll (scrollTop : Z)
| Receive (data : list Message.t)
| FetchStart
| FetchOk (data : list Message.t)
| FetchFail.

Definition step (socket : option SocketId) (s : State) (e : Event) : State :=
  match e with
  | Input v => setChat v s
  | Submit now => onSubmit socket now s
  | Scroll t => handleScrollView t s
  | Receive data => onReceive data s
  | FetchStart => fetchStart s
  | FetchOk data => fetchOk data s
  | FetchFail => s
  end.

(** ** Rendering (lines 130-227) *)

(** The sender shown above a message (line 199):
    [message.email.substring(0, message.email.indexOf("@"))]. *)
Definition senderLabel (m : Message.t) : string :=
  js_substring (Message.email m) 0 (js_indexOf (Message.email m) "@").

Record Row := mkRow {
  row_spinner : bool;     (** line 187 *)
  row_tooltip : string;   (** line 188 *)
  row_avatar : string;    (** lines 189-195 *)
  row_sender : string;    (** line 199 *)
  row_text : string;      (** line 201 *)
  row_time : Z            (** line 204, formatted by moment *)
}.

Definition renderRow (m : Message.t) : Row :=
  {| row_spinner := Message.loading m; row_tooltip := Message.name m;
     row_avatar := Message.avatar m; row_sender := senderLabel m;
     row_text := Message.message m; row_time := Message.time m |}.

Inductive Body := BodySpinner | BodyList (rows : list Row).

Record View := mkView {
  show_scroll_top : bool;     (** lines 140-156 *)
  show_scroll_bottom : bool;  (** lines 157-173 *)
  body : Body                 (** lines 174-214 *)
}.

Definition render (s : State) : View :=
  {| show_scroll_top := top (scrollView s);
     show_scroll_bottom := bottom (scrollView s);
     body := if loading s then BodySpinner
             else BodyList (map renderRow (messages s)) |}.

(** ** Specifications *)

(** A message the user has submitted and that the server has not echoed
    back yet: the copy built by [optimistic]. *)
Definition placeholder (m : Message.t) : Prop :=
  Message.loading m = true /\ Message.email m = "" /\
  Message.avatar m = "" /\ Message.name m = "".

(** The shape the list always has: messages confirmed by the server
    (none of them [loading]) followed by the user's pending placeholders. *)
Definition echo_shape (s : State) : Prop :=
  exists confirmed pending,
    messages s = confirmed ++ pending /\
    Forall (fun m => Message.loading m = false) confirmed /\
    Forall placeholder pending.

(** The events that replace the whole list. *)
Definition replacing (e : Event) : bool :=
  match e with Receive _ | FetchOk _ => true | _ => false end.

Definition is_fetchOk (e : Event) : bool :=
  match e with FetchOk _ => true | _ => false end.

(** The emissions of one submission of [text] on the context's socket. *)
Definition emitted (socket : option SocketId) (text : string) : list (SocketId * string) :=
  match socket with Some id => [(id, text)] | None => [] end.

(** ** Lemmas *)

Lemma onSubmit_nonempty socket now s :
  chat s <> "" ->
  step socket s (Submit now) =
  {| messages := messages s ++ [optimistic (chat s) now]; loading := loading s;
     scrollView := scrollView s; chat := chat s; inputText := "";
     outbox := outbox s ++ emitted socket (chat s) |}.
Proof. intros H%String.eqb_neq. simpl. unfold onSubmit. by rewrite H. Qed.

Lemma step_messages socket s e :
  messages (step socket s e) =
  match e with
  | Submit now => if String.eqb (chat s) "" then messages s
                  else messages s ++ [optimistic (chat s) now]
  | Receive data | FetchOk data => map received data
  | _ => messages s
  end.
Proof. destruct e; simpl; try done. unfold onSubmit. by case_ifs. Qed.

Lemma step_loading socket s e :
  loading (step socket s e) =
  match e with
  | FetchStart => true
  | FetchOk _ => false
  | _ => loading s
  end.
Proof. destruct e; simpl; try done. unfold onSubmit. by case_ifs. Qed.

Lemma placeholder_optimistic text now : placeholder (optimistic text now).
Proof. repeat split. Qed.

Lemma Forall_received data :
  Forall (fun m => Message.loading m = false) (map received data).
Proof. apply Forall_forall. intros m [x [-> _]]%list_elem_of_fmap. done. Qed.

#[local] Hint Resolve placeholder_optimistic Forall_received : chat.

(** A step that does not replace the list only adds placeholders. *)
Lemma quiet_step_placeholders socket s e c p :
  replacing e = false -> messages s = c ++ p -> Forall placeholder p ->
  exists p', messages (step socket s e) = c ++ p' /\ Forall placeholder p'.
Proof.
  intros He Hm Hp. rewrite step_messages, Hm.
  destruct e; try done; try by exists p.
  case_ifs; [by exists p|].
  exists (p ++ [optimistic (chat s) now]). rewrite app_assoc.
  split; [done|]. apply Forall_app; auto with chat.
Qed.

(** Between two replacements, the list only grows by placeholders. *)
Lemma quiet_run_placeholders socket es s c p :
  Forall (fun e => replacing e = false) es ->
  messages s = c ++ p -> Forall placeholder p ->
  exists p', messages (run (step socket) s es) = c ++ p' /\
             Forall placeholder p'.
Proof.
  intros Hes Hm Hp.
  apply (run_invariant_Forall _
           (fun s => exists p, messages s = c ++ p /\ Forall placeholder p)
           (fun e => replacing e = false)); [|done|by exists p].
  intros s' e He (p1 & Hm1 & Hp1). by apply quiet_step_placeholders with p1.
Qed.

Lemma echo_shape_step socket s e : echo_shape s -> echo_shape (step socket s e).
Proof.
  intros (c & p & Hm & Hc & Hp).
  destruct (replacing e) eqn:He.
  - exists (messages (step socket s e)), []. rewrite app_nil_r.
    rewrite step_messages. repeat split; [|done].
    destruct e; try discriminate; apply Forall_received.
  - destruct (quiet_step_placeholders socket s e c p) as (p' & ? & ?); auto.
    by exists c, p'.
Qed.

(** Without [FetchStart], the flag is cleared by the first [FetchOk] and
    kept otherwise. *)
Lemma loading_run socket es s :
  Forall (fun e => e <> FetchStart) es ->
  loading (run (step socket) s es) =
  if existsb is_fetchOk es then false else loading s.
Proof.
  intros Hes. revert s. induction Hes as [|e es He Hes IH]; intros s; [done|].
  rewrite run_cons, IH, step_loading. simpl.
  destruct e; simpl; try done. by case_ifs.
Qed.

(** ** Properties *)

(** C1: submitting a non-empty text appends exactly one
    message, the optimistic copy of the text flagged [loading], empties
    the text the input shows while react-hook-form keeps the value, leaves
    the fetch flag alone, and emits the text on the socket of the context
    when there is one (and emits nothing when there is none). *)
Theorem onSubmit_appends socket now s :
  chat s <> "" ->
  messages (step socket s (Submit now)) = messages s ++ [optimistic (chat s) now] /\
  inputText (step socket s (Submit now)) = "" /\
  chat (step socket s (Submit now)) = chat s /\
  loading (step socket s (Submit now)) = loading s /\
  outbox (step socket s (Submit now)) = outbox s ++ emitted socket (chat s).
Proof. intros H. by rewrite onSubmit_nonempty. Qed.

(** C20: after a message is sent the input shows
    nothing, yet submitting again without typing sends the same text a
    second time: the DOM reset does not reach react-hook-form's value, so
    the [required] rule passes and a second copy is appended and emitted. *)
Theorem resubmit_after_reset socket now1 now2 s :
  chat s <> "" ->
  inputText (step socket s (Submit now1)) = "" /\
  messages (run (step socket) s [Submit now1; Submit now2]) =
    messages s ++ [optimistic (chat s) now1; optimistic (chat s) now2] /\
  outbox (run (step socket) s [Submit now1; Submit now2]) =
    outbox s ++ emitted socket (chat s) ++ emitted socket (chat s).
Proof.
  intros H. rewrite !run_cons, run_nil, !onSubmit_nonempty by done.
  simpl. by rewrite <- !app_assoc.
Qed.

(** C24: submitting an empty input does nothing: the
    [required] rule stops [handleSubmit] before the callback, so no
    message is added and nothing is emitted. *)
Theorem onSubmit_required socket now s :
  chat s = "" -> step socket s (Submit now) = s.
Proof. intros H. simpl. unfold onSubmit. by rewrite H. Qed.

(** C14: a ["receive_message"] broadcast replaces the
    whole list by the broadcast, in its order and with its texts, with no
    message left [loading]: every optimistic copy disappears. *)
Theorem onReceive_replaces socket s data :
  messages (step socket s (Receive data)) = map received data /\
  map Message.message (messages (step socket s (Receive data))) =
    map Message.message data /\
  Forall (fun m => Message.loading m = false) (messages (step socket s (Receive data))).
Proof.
  simpl. split; [done|]. split; [|apply Forall_received].
  rewrite map_map. by apply map_ext.
Qed.

(** C7: in every state reachable from mount, the list is
    the messages confirmed by the server (none [loading]) followed by the
    user's pending placeholders (each [loading], with no email, avatar or
    name): a spinner is only ever shown on the trailing own messages. *)
Theorem echo_shape_run socket es : echo_shape (run (step socket) init es).
Proof.
  apply (run_invariant (step socket)); [apply echo_shape_step|].
  by exists [], [].
Qed.

(** C8: the last event that replaces the list
    decides it: after a broadcast or a fetch response carrying [data],
    followed by any events that do not replace the list, the list is
    [data] (cleared) followed by placeholders only.  In particular a
    [/chat] response that arrives after a newer broadcast overwrites it. *)
Theorem snapshot_then_placeholders socket s es1 e data es2 :
  (e = Receive data \/ e = FetchOk data) ->
  Forall (fun e => replacing e = false) es2 ->
  exists p, messages (run (step socket) s (es1 ++ e :: es2)) =
            map received data ++ p /\ Forall placeholder p.
Proof.
  intros He Hes2. rewrite run_app, run_cons.
  apply quiet_run_placeholders with []; [done| |done].
  rewrite app_nil_r, step_messages. by destruct He as [-> | ->].
Qed.

(** C29: for a non-negative offset, the scroll-to-top
    button is shown when the list has more than ten messages and is
    scrolled, and the scroll-to-bottom button when it has more than ten
    messages and is at least 20px from the end of the 90px-per-message
    content; with ten messages or fewer the view is always "top only",
    even at offset 0. *)
Theorem scrollViewFor_spec n t :
  (0 <= t)%Z ->
  scrollViewFor n t =
  if (10 <? n)%nat
  then {| top := (0 <? t)%Z; bottom := (t <=? 90 * (Z.of_nat n - 10) - 20)%Z |}
  else {| top := true; bottom := false |}.
Proof.
  intros Ht. unfold scrollViewFor.
  destruct (Nat.ltb_spec 10 n).
  - destruct (Z.ltb_spec (90 * (Z.of_nat n - 10) - t) 20);
      destruct (Z.eqb_spec t 0); destruct (Z.ltb_spec 0 t);
      destruct (Z.leb_spec t (90 * (Z.of_nat n - 10) - 20)); try lia; done.
  - destruct (Z.ltb_spec (90 * (Z.of_nat n - 10) - t) 20); [done|lia].
Qed.

(** C40: after any scroll event at least one of the two
    scroll buttons is rendered. *)
Theorem scroll_some_button socket s t :
  show_scroll_top (render (step socket s (Scroll t))) ||
  show_scroll_bottom (render (step socket s (Scroll t))) = true.
Proof. simpl. unfold scrollViewFor. by case_ifs. Qed.

(** C11: once [fetchGlobalChat] has started, the
    chat body is the spinner until a successful response arrives, whatever
    else happens (broadcasts, submissions, scrolling, failed fetches): a
    failed fetch leaves the spinner on for good, since the effect never
    runs again for the same URL. *)
Theorem spinner_until_fetchOk socket s es :
  Forall (fun e => e <> FetchStart) es ->
  body (render (run (step socket) s (FetchStart :: es))) = BodySpinner <->
  existsb is_fetchOk es = false.
Proof.
  intros Hes. unfold render. rewrite run_cons, loading_run by done.
  simpl. destruct (existsb is_fetchOk es); split; done.
Qed.




(** ** Witnesses: the properties at concrete inputs *)

Definition alice_msg : Message.t :=
  Message.mk "old" 1 "alice@example.org" false "" "Alice".
Definition bob_msg : Message.t :=
  Message.mk "new" 2 "bob@example.org" false "" "Bob".

Lemma onSubmit_appends_witness :
  chat (setChat "hello" init) <> "" /\
  messages (step (Some 7) (setChat "hello" init) (Submit 42)) =
    [optimistic "hello" 42] /\
  outbox (step (Some 7) (setChat "hello" init) (Submit 42)) = [(7, "hello")].
Proof.
  destruct (onSubmit_appends (Some 7) 42 (setChat "hello" init)) as (Hm & _ & _ & _ & Ho);
    [discriminate|].
  split; [discriminate|]. rewrite Hm, Ho. split; reflexivity.
Defined.

Lemma resubmit_after_reset_witness :
  chat (setChat "hello" init) <> "" /\
  outbox (run (step (Some 7)) (setChat "hello" init) [Submit 1; Submit 2]) =
    [(7, "hello"); (7, "hello")].
Proof.
  destruct (resubmit_after_reset (Some 7) 1 2 (setChat "hello" init)) as (_ & _ & Ho);
    [discriminate|].
  split; [discriminate|]. rewrite Ho. reflexivity.
Defined.

Lemma onSubmit_required_witness :
  step (Some 7) init (Submit 42) = init.
Proof. apply (onSubmit_required (Some 7) 42 init). reflexivity. Defined.

(** A broadcast of [bob_msg] overtaken by the stale [/chat] response that
    carried [alice_msg]: the stale list wins. *)
Lemma snapshot_then_placeholders_witness :
  exists p, messages (run (step (Some 7)) init
              ([FetchStart; Receive [bob_msg]] ++
               FetchOk [alice_msg] :: [Input "hi"; Submit 3])) =
            map received [alice_msg] ++ p /\ Forall placeholder p.
Proof.
  apply (snapshot_then_placeholders (Some 7) init [FetchStart; Receive [bob_msg]]
           (FetchOk [alice_msg]) [alice_msg] [Input "hi"; Submit 3]).
  - right. reflexivity.
  - repeat constructor.
Defined.

Lemma scrollViewFor_spec_witness :
  scrollViewFor 3 0 = {| top := true; bottom := false |} /\
  scrollViewFor 30 0 = {| top := false; bottom := true |}.
Proof.
  split.
  - rewrite (scrollViewFor_spec 3 0) by lia. reflexivity.
  - rewrite (scrollViewFor_spec 30 0) by lia. reflexivity.
Defined.

Lemma spinner_until_fetchOk_witness :
  body (render (run (step None) init
    (FetchStart :: [FetchFail; Receive [bob_msg]; Scroll 10]))) = BodySpinner.
Proof.
  apply (spinner_until_fetchOk None init [FetchFail; Receive [bob_msg]; Scroll 10]).
  - repeat constructor; discriminate.
  - reflexivity.
Defined.



End ChatRoom.
