(* ===== verification/ChatSpec.v ===== *)
(** * What the chat room promises, as a function of its history

    [ChatRoom.step] keeps the chat room's state up to date one event at a
    time.  This file states what that state should be, from the list of
    events the component has seen (latest first), with no reference to the
    handlers:

    - the list shown is the data of the latest broadcast or [/chat]
      response, with its [loading] flags cleared, followed by an optimistic
      copy of every non-empty submission since, in order;
    - the value the form library holds is the latest text typed, and the
      text the input shows is that one, or empty after a submission;
    - the spinner is on when the latest fetch event is its start;
    - the scroll buttons are those of the latest scroll, for the length of
      the list at that moment;
    - the emissions are one per non-empty submission, on the socket of the
      context.

    The refinement theorem [step_refines_history] shows that every run of
    the handlers from mount ends in exactly the state the history
    dictates.  The file also proves that the sender label of line 199,
    computed with [indexOf] and [substring], is the part of the email
    before its first [@]. *)

From stdpp Require Import base list strings.
From Stdlib Require Import ZArith Lia Ascii.
From S2P Require Import Prelude Js ChatRoom.

Open Scope string_scope.
Open Scope list_scope.

Module ChatSpec.
Import ChatRoom.

(** ** The specification, on the history read latest event first *)

(** The value of react-hook-form's field: the latest text typed. *)
Fixpoint typed (h : list Event) : string :=
  match h with
  | [] => ""
  | Input v :: _ => v
  | _ :: h' => typed h'
  end.

(** The optimistic copies of a submission: none for an empty field. *)
Definition copies (h : list Event) (now : Z) : list Message.t :=
  if String.eqb (typed h) "" then [] else [optimistic (typed h) now].

Fixpoint shown (h : list Event) : list Message.t :=
  match h with
  | [] => []
  | Receive data :: _ | FetchOk data :: _ => map received data
  | Submit now :: h' => shown h' ++ copies h' now
  | _ :: h' => shown h'
  end.

Fixpoint spinning (h : list Event) : bool :=
  match h with
  | [] => false
  | FetchStart :: _ => true
  | FetchOk _ :: _ => false
  | _ :: h' => spinning h'
  end.

Fixpoint buttons (h : list Event) : ScrollView :=
  match h with
  | [] => {| top := false; bottom := false |}
  | Scroll t :: h' => scrollViewFor (length (shown h')) t
  | _ :: h' => buttons h'
  end.

Fixpoint displayed (h : list Event) : string :=
  match h with
  | [] => ""
  | Input v :: _ => v
  | Submit _ :: h' => if String.eqb (typed h') "" then displayed h' else ""
  | _ :: h' => displayed h'
  end.

Fixpoint sent (socket : option SocketId) (h : list Event) : list (SocketId * string) :=
  match h with
  | [] => []
  | Submit _ :: h' =>
      sent socket h' ++ (if String.eqb (typed h') "" then [] else emitted socket (typed h'))
  | _ :: h' => sent socket h'
  end.

(** The state a history dictates. *)
Definition from_history (socket : option SocketId) (h : list Event) : State :=
  {| messages := shown h; loading := spinning h; scrollView := buttons h;
     chat := typed h; inputText := displayed h; outbox := sent socket h |}.

(** ** The reference definition of the sender label *)

(** The characters of [s] before its first [@], if it has one. *)
Fixpoint before_at (s : string) : option string :=
  match s with
  | EmptyString => None
  | String c s' => if Ascii.eqb c "@" then Some "" else String c <$> before_at s'
  end.

(** ** Lemmas *)

(** One more event on top of a history is one more step of the handlers. *)
Lemma from_history_step socket h e :
  step socket (from_history socket h) e = from_history socket (e :: h).
Proof.
  destruct e; try reflexivity. unfold from_history. simpl. unfold onSubmit, copies. simpl.
  destruct (String.eqb (typed h) "") eqn:E; simpl; by rewrite ?app_nil_r.
Qed.

Lemma from_history_nil socket : from_history socket [] = init.
Proof. reflexivity. Qed.

(** An email with an [@] splits at its first one. *)
Lemma split_first_char c s :
  has_char c s = true ->
  exists l r, s = l +:+ String c r /\ has_char c l = false.
Proof.
  induction s as [|d s IH]; [done|]. simpl.
  destruct (Ascii.eqb c d) eqn:Hcd; simpl.
  - intros _. apply Ascii.eqb_eq in Hcd as ->. by exists "", s.
  - intros (l & r & -> & Hl)%IH. exists (String d l), r. simpl. by rewrite Hcd.
Qed.

Lemma before_at_absent s : has_char "@" s = false -> before_at s = None.
Proof.
  induction s as [|d s IH]; [done|]. cbn [has_char before_at].
  intros [Hd Hs]%orb_false_iff. rewrite Ascii.eqb_sym, Hd, IH; done.
Qed.

Lemma before_at_first l r :
  has_char "@" l = false -> before_at (l +:+ String "@" r) = Some l.
Proof.
  induction l as [|d l IH]; [done|].
  change (String d l +:+ String "@" r) with (String d (l +:+ String "@" r)).
  cbn [has_char before_at]. intros [Hd Hl]%orb_false_iff. rewrite Ascii.eqb_sym, Hd, IH; done.
Qed.

(** The label of line 199 on an email [l@r] whose [l] has no [@]. *)
Lemma senderLabel_split m l r :
  has_char "@" l = false -> Message.email m = l +:+ String "@" r -> senderLabel m = l.
Proof.
  intros Hl He. unfold senderLabel. rewrite He, js_indexOf_first by done.
  rewrite js_substring_0_in, Nat2Z.id by (rewrite string_length_append; simpl; lia).
  apply substring_0_prefix.
Qed.

Lemma senderLabel_absent m : has_char "@" (Message.email m) = false -> senderLabel m = "".
Proof.
  intros H. unfold senderLabel. rewrite js_indexOf_absent by done.
  by apply js_substring_0_neg.
Qed.

(** ** Properties *)

(** C3: refinement of the history specification: every run of the chat
    room's handlers from mount, on any socket, ends in the state its
    history dictates: the latest snapshot followed by the optimistic
    copies of the submissions since, the latest text typed, the spinner
    of the latest fetch event, the buttons of the latest scroll, and one
    emission per non-empty submission. *)
Theorem step_refines_history socket es :
  run (step socket) init es = from_history socket (rev es).
Proof.
  induction es as [|e es IH] using rev_ind; [done|].
  by rewrite run_snoc, IH, from_history_step, rev_unit.
Qed.

(** C36: the sender label, computed with [indexOf("@")] and
    [substring(0, _)], equals the reference definition: the part of the
    email before its first [@], or the empty string when there is none. *)
Theorem senderLabel_before_at m :
  senderLabel m = default "" (before_at (Message.email m)).
Proof.
  destruct (has_char "@" (Message.email m)) eqn:Hat.
  - destruct (split_first_char _ _ Hat) as (l & r & He & Hl).
    by rewrite (senderLabel_split m l r), He, before_at_first.
  - by rewrite senderLabel_absent, before_at_absent.
Qed.

End ChatSpec.
