(* ===== verification/MailSubmission.v ===== *)
(** * The registration form ([src/components/MailSubmission/MailSubmission.tsx])

    [MailSubmission] holds a [loading] flag and a [helpText] in React state,
    and an email field managed by react-hook-form (v7: [register] is spread
    into the input and [formState.errors] holds the validation error).  Its
    handlers:

    - the Google sign-in ([useGoogleLogin], lines 37-59): on success posts
      the authorization code to [/user/google] and fills the field with the
      email of the answer ([setValue], [setFocus]), or shows
      "Try again later!";
    - [onSubmit] (lines 61-88): validated by the yup schema (lines 11-15);
      when valid, sets [loading], posts the email to [/user/register] and, on
      the answer, clears [loading] and shows one of three help texts; a 400
      keeps the field, any other status resets the form.

    The schema is a library call: it is a parameter of the component, a
    record of its validator and of the law [required()] gives it (the empty
    string is rejected); every theorem holds for every such validator.  The
    DOM text of the input and react-hook-form's value are two fields, because
    [formRef.current.reset()] is the DOM form's reset: it clears the text the
    input shows and not the value the form library validates and sends.

    The request to [/user/register] is asynchronous: its start and its
    answer are two events.  The step relation [mstep] lets the environment
    deliver an answer only to a request in flight, and a submission only
    while the submit button is enabled: Chakra's [isLoading] (line 102)
    disables the button, and a form whose default button is disabled has no
    implicit submission either.  [render] is what the form shows: the
    input's text, the two buttons' spinners and the text under the
    input. *)

From stdpp Require Import base list strings.
From Stdlib Require Import ZArith Lia Ascii.
From S2P Require Import Prelude Js.

Open Scope string_scope.
Open Scope list_scope.

Module MailSubmission.

(** The yup schema [{ email: string().required().email() }] (lines 11-15):
    the error message of a value, if it is rejected. *)
Record EmailSchema := mkSchema {
  schema_error : string -> option string;
  schema_required : is_Some (schema_error "")
}.

Section WithSchema.
Context (schema : EmailSchema).

Record State := mkState {
  loading : bool;                 (** line 18 *)
  helpText : string;              (** line 20 *)
  email : string;                 (** react-hook-form's value of "email" *)
  emailInput : string;            (** the text the DOM input shows *)
  focused : bool;                 (** [setFocus("email")] *)
  errorMsg : option string;       (** [errors.email?.message] *)
  isSubmitted : bool;             (** react-hook-form's [isSubmitted] *)
  requests : list string;         (** the emails posted to [/user/register] *)
  pending : option string         (** the request in flight, if any *)
}.

Definition init : State :=
  {| loading := false; helpText := ""; email := ""; emailInput := "";
     focused := false; errorMsg := None; isSubmitted := false;
     requests := []; pending := None |}.

(** *** The state setters the handlers call *)

Definition setLoading (b : bool) (s : State) : State :=
  {| loading := b; helpText := helpText s; email := email s;
     emailInput := emailInput s; focused := focused s; errorMsg := errorMsg s;
     isSubmitted := isSubmitted s; requests := requests s; pending := pending s |}.

Definition setHelpText (t : string) (s : State) : State :=
  {| loading := loading s; helpText := t; email := email s;
     emailInput := emailInput s; focused := focused s; errorMsg := errorMsg s;
     isSubmitted := isSubmitted s; requests := requests s; pending := pending s |}.

(** react-hook-form's [setValue] on a registered input: the value and the
    DOM text; without [shouldValidate] it does not validate. *)
Definition setValue (v : string) (s : State) : State :=
  {| loading := loading s; helpText := helpText s; email := v;
     emailInput := v; focused := focused s; errorMsg := errorMsg s;
     isSubmitted := isSubmitted s; requests := requests s; pending := pending s |}.

Definition setFocus (s : State) : State :=
  {| loading := loading s; helpText := helpText s; email := email s;
     emailInput := emailInput s; focused := true; errorMsg := errorMsg s;
     isSubmitted := isSubmitted s; requests := requests s; pending := pending s |}.

(** [formRef.current.reset()]: the DOM text only. *)
Definition formReset (s : State) : State :=
  {| loading := loading s; helpText := helpText s; email := email s;
     emailInput := ""; focused := focused s; errorMsg := errorMsg s;
     isSubmitted := isSubmitted s; requests := requests s; pending := pending s |}.

(** [handleSubmit]'s validation: marks the form submitted and stores the
    schema's verdict as the field's error. *)
Definition validate (s : State) : State :=
  {| loading := loading s; helpText := helpText s; email := email s;
     emailInput := emailInput s; focused := focused s;
     errorMsg := schema_error schema (email s);
     isSubmitted := true; requests := requests s; pending := pending s |}.

(** The POST to [/user/register] (lines 64-73) leaves with the value. *)
Definition postRegister (s : State) : State :=
  {| loading := loading s; helpText := helpText s; email := email s;
     emailInput := emailInput s; focused := focused s; errorMsg := errorMsg s;
     isSubmitted := isSubmitted s; requests := requests s ++ [email s];
     pending := Some (email s) |}.

(** Its answer settles it. *)
Definition settle (s : State) : State :=
  {| loading := loading s; helpText := helpText s; email := email s;
     emailInput := emailInput s; focused := focused s; errorMsg := errorMsg s;
     isSubmitted := isSubmitted s; requests := requests s; pending := None |}.

(** *** The handlers *)

(** Typing: the input's [onChange]; once the form has been submitted,
    react-hook-form revalidates on every change ([reValidateMode]). *)
Definition onType (v : string) (s : State) : State :=
  {| loading := loading s; helpText := helpText s; email := v;
     emailInput := v; focused := focused s;
     errorMsg := if isSubmitted s then schema_error schema v else errorMsg s;
     isSubmitted := isSubmitted s; requests := requests s; pending := pending s |}.

(** The answer of [/user/google] (lines 38-57): its email, or a failure of
    the request or of [response.json()]. *)
Inductive GoogleOutcome := GoogleEmail (e : string) | GoogleFailure.

Definition onGoogleSuccess (o : GoogleOutcome) (s : State) : State :=
  match o with
  | GoogleEmail e => setHelpText "Submit email to login" (setFocus (setValue e s))
  | GoogleFailure => setHelpText "Try again later!" s
  end.

(** [onSubmit] up to the request (lines 61-73): the callback only runs when
    the schema accepts the value. *)
Definition onSubmitStart (s : State) : State :=
  let s1 := validate s in
  match errorMsg s1 with
  | Some _ => s1
  | None => postRegister (setLoading true s1)
  end.

(** The answer of [/user/register] with its status (lines 74-82). *)
Definition onRegisterStatus (status : Z) (s : State) : State :=
  let s1 := setLoading false (settle s) in
  if (status =? 400)%Z then setHelpText "Your email haven't registered yet!" s1
  else setHelpText "Check your mail box!" (formReset s1).

(** A failed request (lines 83-87). *)
Definition onRegisterError (s : State) : State :=
  setHelpText "Try again later!" (setLoading false (settle s)).

Inductive Event :=
| TypeEmail (v : string)
| Google (o : GoogleOutcome)
| Submit
| RegisterStatus (status : Z)
| RegisterError.

Definition step (s : State) (e : Event) : State :=
  match e with
  | TypeEmail v => onType v s
  | Google o => onGoogleSuccess o s
  | Submit => onSubmitStart s
  | RegisterStatus st => onRegisterStatus st s
  | RegisterError => onRegisterError s
  end.

(** The text under the input (line 108): [errors.email?.message || helpText]. *)
Definition displayText (s : State) : string :=
  match errorMsg s with
  | Some m => if String.eqb m "" then helpText s else m
  | None => helpText s
  end.

(** What the form renders (lines 90-121): the input shows its DOM text,
    both buttons get [isLoading={loading}] (lines 102 and 114), and the
    text under the input is [displayText]. *)
Record FormView := mkFormView {
  input_text : string;
  send_loading : bool;
  google_loading : bool;
  message : string
}.

Definition render (s : State) : FormView :=
  {| input_text := emailInput s; send_loading := loading s;
     google_loading := loading s; message := displayText s |}.

(** *** Executions *)

Inductive mstep : State -> Event -> State -> Prop :=
| mstep_type s v : mstep s (TypeEmail v) (step s (TypeEmail v))
| mstep_google s o : mstep s (Google o) (step s (Google o))
| mstep_submit s : loading s = false -> mstep s Submit (step s Submit)
| mstep_status s st : is_Some (pending s) -> mstep s (RegisterStatus st) (step s (RegisterStatus st))
| mstep_error s : is_Some (pending s) -> mstep s RegisterError (step s RegisterError).

Inductive reachable : State -> Prop :=
| reachable_init : reachable init
| reachable_step s e s' : reachable s -> mstep s e s' -> reachable s'.

End WithSchema.

(** A concrete schema, used by the witnesses: the empty string is
    [required], and a value without [@] is not an email. *)
Definition demo_schema : EmailSchema :=
  {| schema_error := fun v =>
       if String.eqb v "" then Some "email is a required field"
       else if has_char "@"%char v then None else Some "email must be a valid email";
     schema_required := ltac:(eexists; reflexivity) |}.

Section Proofs.
Context (schema : EmailSchema).

(** The invariant of the reachable states: the spinner is on exactly while
    a request is in flight, and every posted email passed the schema. *)
Definition inv (s : State) : Prop :=
  (loading s = true <-> is_Some (pending s)) /\
  Forall (fun e => schema_error schema e = None) (requests s).

Lemma onSubmitStart_valid s :
  schema_error schema (email s) = None ->
  onSubmitStart schema s = postRegister (setLoading true (validate schema s)).
Proof. intros H. unfold onSubmitStart. simpl. by rewrite H. Qed.

Lemma onSubmitStart_invalid s m :
  schema_error schema (email s) = Some m ->
  onSubmitStart schema s = validate schema s.
Proof. intros H. unfold onSubmitStart. simpl. by rewrite H. Qed.

Lemma inv_init : inv init.
Proof. split; [split; [discriminate | by intros []]|constructor]. Qed.

Lemma inv_mstep s e s' : inv s -> mstep schema s e s' -> inv s'.
Proof.
  intros [Hl Hr] Hs. destruct Hs as [s v|s o|s Hload|s st Hp|s Hp]; simpl.
  - by split.
  - destruct o; by split.
  - destruct (schema_error schema (email s)) as [m|] eqn:E.
    + rewrite (onSubmitStart_invalid s m E). by split.
    + rewrite (onSubmitStart_valid s E). split; [split; eauto|].
      simpl. apply Forall_app. split; [done|]. by constructor.
  - unfold onRegisterStatus. case_ifs; (split; [split; [discriminate| by intros []]|done]).
  - split; [split; [discriminate| by intros []]|done].
Qed.

Lemma reachable_inv s : reachable schema s -> inv s.
Proof. induction 1; eauto using inv_init, inv_mstep. Qed.

(** C12: in every reachable state both rendered buttons, "Send" and
    "Register with Google", show their spinner exactly while a
    registration request is in flight. *)
Theorem loading_iff_pending s :
  reachable schema s ->
  (send_loading (render s) = true <-> is_Some (pending s)) /\
  google_loading (render s) = send_loading (render s).
Proof. intros H. split; [apply (reachable_inv s H) | done]. Qed.

(** C13: no email the schema rejects is ever posted to
    [/user/register]. *)
Theorem requests_validated s :
  reachable schema s -> Forall (fun e => schema_error schema e = None) (requests s).
Proof. intros H. apply (reachable_inv s H). Qed.

(** C26: a submission is only possible when no
    request is in flight, so two registration requests never overlap. *)
Theorem no_overlapping_requests s s' :
  reachable schema s -> mstep schema s Submit s' -> pending s = None.
Proof.
  intros Hr Hs. inversion Hs as [| |s0 Hload| |]; subst.
  destruct (reachable_inv s Hr) as [[_ Hp] _].
  destruct (pending s) eqn:E; [|done].
  assert (loading s = true) by (apply Hp; by eexists). congruence.
Qed.

(** C19: the answer of [/user/register] clears the
    spinner and settles the request; a 400 says the email is not
    registered and keeps the input, and every other status (a 500
    included) says "Check your mail box!" and clears the input text. *)
Theorem onRegisterStatus_spec s st :
  loading (step schema s (RegisterStatus st)) = false /\
  pending (step schema s (RegisterStatus st)) = None /\
  email (step schema s (RegisterStatus st)) = email s /\
  (if (st =? 400)%Z
   then helpText (step schema s (RegisterStatus st)) = "Your email haven't registered yet!" /\
        emailInput (step schema s (RegisterStatus st)) = emailInput s
   else helpText (step schema s (RegisterStatus st)) = "Check your mail box!" /\
        emailInput (step schema s (RegisterStatus st)) = "").
Proof. simpl. unfold onRegisterStatus. by case_ifs. Qed.

(** C25: submitting a value the schema rejects posts
    nothing, leaves the spinner off, and shows the schema's message under
    the input. *)
Theorem onSubmit_invalid s m :
  schema_error schema (email s) = Some m -> m <> "" ->
  requests (step schema s Submit) = requests s /\
  pending (step schema s Submit) = pending s /\
  loading (step schema s Submit) = loading s /\
  displayText (step schema s Submit) = m.
Proof.
  intros H Hm%String.eqb_neq. simpl. rewrite (onSubmitStart_invalid s m H).
  unfold displayText. simpl. by rewrite H, Hm.
Qed.

(** C21: after a successful registration the input
    shows nothing, yet the submit button posts the same email again: the
    DOM reset does not reach react-hook-form's value. *)
Theorem resubmit_after_success s st :
  loading s = false -> schema_error schema (email s) = None -> (st =? 400)%Z = false ->
  exists s1 s2 s3,
    mstep schema s Submit s1 /\ mstep schema s1 (RegisterStatus st) s2 /\
    emailInput s2 = "" /\ mstep schema s2 Submit s3 /\
    requests s3 = requests s ++ [email s; email s].
Proof.
  intros Hl Hv Hst.
  set (s1 := step schema s Submit).
  set (s2 := step schema s1 (RegisterStatus st)).
  assert (H1 : s1 = postRegister (setLoading true (validate schema s)))
    by (apply onSubmitStart_valid, Hv).
  assert (H2 : s2 = setHelpText "Check your mail box!"
                      (formReset (setLoading false (settle s1))))
    by (unfold s2; simpl; unfold onRegisterStatus; by rewrite Hst).
  assert (H3 : step schema s2 Submit = postRegister (setLoading true (validate schema s2)))
    by (apply onSubmitStart_valid; rewrite H2, H1; exact Hv).
  exists s1, s2, (step schema s2 Submit).
  split; [by apply mstep_submit|].
  split; [apply mstep_status; rewrite H1; by eexists|].
  split; [by rewrite H2|].
  split; [apply mstep_submit; by rewrite H2|].
  rewrite H3, H2, H1. simpl. by rewrite <- app_assoc.
Qed.

(** C34: once a submission has failed validation,
    a successful Google sign-in fills the input but its help text stays
    hidden behind the stale validation message, since [setValue] does not
    revalidate. *)
Theorem google_hidden_by_error s e m :
  errorMsg s = Some m -> m <> "" ->
  email (step schema s (Google (GoogleEmail e))) = e /\
  helpText (step schema s (Google (GoogleEmail e))) = "Submit email to login" /\
  displayText (step schema s (Google (GoogleEmail e))) = m.
Proof.
  intros H Hm%String.eqb_neq. unfold displayText. simpl. by rewrite H, Hm.
Qed.

End Proofs.

(** ** Witnesses, with [demo_schema] *)

Definition typed_valid : State := step demo_schema init (TypeEmail "ann@example.org").
Definition submitted_valid : State := step demo_schema typed_valid Submit.
Definition typed_invalid : State := step demo_schema init (TypeEmail "nobody").
Definition submitted_invalid : State := step demo_schema typed_invalid Submit.

Lemma typed_valid_reachable : reachable demo_schema typed_valid.
Proof. eapply reachable_step; [apply reachable_init | apply mstep_type]. Defined.

Lemma submitted_valid_mstep : mstep demo_schema typed_valid Submit submitted_valid.
Proof. apply mstep_submit. reflexivity. Defined.

Lemma submitted_valid_reachable : reachable demo_schema submitted_valid.
Proof.
  eapply reachable_step; [apply typed_valid_reachable | apply submitted_valid_mstep].
Defined.

Lemma loading_iff_pending_witness :
  reachable demo_schema submitted_valid /\
  (send_loading (render submitted_valid) = true <-> is_Some (pending submitted_valid)) /\
  google_loading (render submitted_valid) = send_loading (render submitted_valid).
Proof.
  split; [apply submitted_valid_reachable|].
  apply (loading_iff_pending demo_schema submitted_valid submitted_valid_reachable).
Defined.

Lemma requests_validated_witness :
  requests submitted_valid = ["ann@example.org"] /\
  Forall (fun e => schema_error demo_schema e = None) (requests submitted_valid).
Proof.
  split; [reflexivity|].
  apply (requests_validated demo_schema submitted_valid submitted_valid_reachable).
Defined.

Lemma no_overlapping_requests_witness : pending typed_valid = None.
Proof.
  apply (no_overlapping_requests demo_schema typed_valid submitted_valid
           typed_valid_reachable submitted_valid_mstep).
Defined.

Lemma onSubmit_invalid_witness :
  displayText (step demo_schema typed_invalid Submit) = "email must be a valid email".
Proof.
  apply (onSubmit_invalid demo_schema typed_invalid "email must be a valid email");
    [reflexivity | discriminate].
Defined.

Lemma resubmit_after_success_witness :
  exists s1 s2 s3,
    mstep demo_schema typed_valid Submit s1 /\
    mstep demo_schema s1 (RegisterStatus 200) s2 /\
    emailInput s2 = "" /\ mstep demo_schema s2 Submit s3 /\
    requests s3 = ["ann@example.org"; "ann@example.org"].
Proof.
  apply (resubmit_after_success demo_schema typed_valid 200); reflexivity.
Defined.

Lemma google_hidden_by_error_witness :
  displayText (step demo_schema submitted_invalid (Google (GoogleEmail "ann@example.org")))
  = "email must be a valid email".
Proof.
  apply (google_hidden_by_error demo_schema submitted_invalid "ann@example.org"
           "email must be a valid email"); [reflexivity | discriminate].
Defined.

End MailSubmission.
