(* ===== verification/App.v ===== *)
(** * The session and the socket of the application shell ([src/pages/_app.tsx])

    [MyApp] keeps [authentication : "user" | "guest"] (lines 34-36) and
    [socket : Socket | null] (line 30) in React state, reads the [?token=]
    query parameter (line 42) and the bearer token of
    [sessionStorage["Authentication"]], and provides the socket to the
    pages through [SocketContext] (lines 26, 110).

    - The effect on [[URL, token]] (lines 48-79) calls [authenticate] on the
      stored token, if any, and on the query token, if any.  [authenticate]
      (lines 49-71) is asynchronous: it fetches [/user/login]; on an answer
      it first clears the query ([router.replace], line 59), then reads the
      JSON body; a [statusCode] of 401 makes the user a guest and removes the
      stored token, any other body stores the token and makes the user a
      "user"; a failed request or body makes the user a guest.
    - The effect on [[authentication]] (lines 81-93) opens a socket.io
      connection carrying the stored token when the user is a "user", puts
      it in state, and its cleanup closes it when [authentication] changes.

    An effect runs after a render in which one of its dependencies changed.
    The socket effect only depends on [authentication], which only the
    answers change, so it is run at the end of the answer's handler.  The
    token effect depends on the query token, which [router.replace]
    changes: its runs are events of their own, enabled when the token
    differs from the one of its last run.  The requests in flight are a
    list of tokens; the environment answers any of them, in any order. *)

From stdpp Require Import base list gmap strings.
From Stdlib Require Import ZArith Lia.
From S2P Require Import Prelude Js.

Open Scope string_scope.
Open Scope list_scope.

Module App.

Inductive Auth := User | Guest.

#[export] Instance Auth_eq_dec : EqDecision Auth.
Proof. solve_decision. Defined.

Definition SocketId := nat.

Record State := mkState {
  authentication : Auth;            (** line 34 *)
  socket : option SocketId;         (** line 30, the value of [SocketContext] *)
  session : Storage;                (** [sessionStorage] *)
  query : option string;            (** [router.query.token] *)
  lastToken : option (option string);  (** the token of the last effect run *)
  inflight : list string;           (** the [/user/login] requests in flight *)
  openSockets : gset SocketId;      (** the connections not closed *)
  effectSocket : option SocketId;   (** the socket the cleanup will close *)
  nextSocket : SocketId;            (** a fresh identity for [io()] *)
  connections : list (SocketId * string)  (** each [io()] with its token *)
}.

(** A page load over the session's [sessionStorage] and a query token. *)
Definition load (session : Storage) (query : option string) : State :=
  {| authentication := Guest; socket := None; session := session; query := query;
     lastToken := None; inflight := []; openSockets := ∅; effectSocket := None;
     nextSocket := 0; connections := [] |}.

(** The answer of [/user/login]: the request failed, the body is not JSON,
    or the body's [statusCode] (absent in a success body). *)
Inductive LoginOutcome :=
| NetworkError
| BadJson
| StatusCode (code : option Z).

(** *** The token effect (lines 72-77) *)

(** [String(sessionStorage.getItem("Authentication"))] when it is truthy. *)
Definition storedToken (s : State) : list string :=
  match getItem "Authentication" (session s) with
  | Some v => if js_truthy (Some v) then [v] else []
  | None => []
  end.

Definition queryToken (s : State) : list string :=
  match query s with
  | Some v => if js_truthy (Some v) then [v] else []
  | None => []
  end.

Definition authEffect (s : State) : State :=
  {| authentication := authentication s; socket := socket s; session := session s;
     query := query s; lastToken := Some (query s);
     inflight := inflight s ++ storedToken s ++ queryToken s;
     openSockets := openSockets s; effectSocket := effectSocket s;
     nextSocket := nextSocket s; connections := connections s |}.

(** *** The socket effect (lines 81-93) *)

(** The cleanup of the previous run: [newSocket.close()]. *)
Definition cleanup (s : State) : State :=
  {| authentication := authentication s; socket := socket s; session := session s;
     query := query s; lastToken := lastToken s; inflight := inflight s;
     openSockets := match effectSocket s with
                    | Some id => openSockets s ∖ {[id]}
                    | None => openSockets s
                    end;
     effectSocket := None; nextSocket := nextSocket s; connections := connections s |}.

(** [io(..., { query: { Authorization: `${sessionStorage.getItem(...)}` } })]:
    a template literal turns a missing item into ["null"]. *)
Definition authQuery (s : State) : string :=
  match getItem "Authentication" (session s) with Some v => v | None => "null" end.

Definition openSocket (s : State) : State :=
  {| authentication := authentication s; socket := Some (nextSocket s);
     session := session s; query := query s; lastToken := lastToken s;
     inflight := inflight s; openSockets := {[nextSocket s]} ∪ openSockets s;
     effectSocket := Some (nextSocket s); nextSocket := S (nextSocket s);
     connections := connections s ++ [(nextSocket s, authQuery s)] |}.

Definition socketEffect (s : State) : State :=
  let s1 := cleanup s in
  if decide (authentication s1 = User) then openSocket s1 else s1.

(** [setAuthentication], with the render and the socket effect it causes
    when the value changes. *)
Definition setAuthentication (a : Auth) (s : State) : State :=
  if decide (a = authentication s) then s
  else socketEffect
         {| authentication := a; socket := socket s; session := session s;
            query := query s; lastToken := lastToken s; inflight := inflight s;
            openSockets := openSockets s; effectSocket := effectSocket s;
            nextSocket := nextSocket s; connections := connections s |}.

(** *** [authenticate] (lines 49-71) *)

Definition setSession (st : Storage) (s : State) : State :=
  {| authentication := authentication s; socket := socket s; session := st;
     query := query s; lastToken := lastToken s; inflight := inflight s;
     openSockets := openSockets s; effectSocket := effectSocket s;
     nextSocket := nextSocket s; connections := connections s |}.

(** [router.replace("", undefined, { shallow: true })]: the query is gone. *)
Definition routerReplace (s : State) : State :=
  {| authentication := authentication s; socket := socket s; session := session s;
     query := None; lastToken := lastToken s; inflight := inflight s;
     openSockets := openSockets s; effectSocket := effectSocket s;
     nextSocket := nextSocket s; connections := connections s |}.

Fixpoint remove_one (t : string) (l : list string) : list string :=
  match l with
  | [] => []
  | x :: l' => if String.eqb x t then l' else x :: remove_one t l'
  end.

(** The answer to the request of [tok] is settled. *)
Definition settleLogin (tok : string) (s : State) : State :=
  {| authentication := authentication s; socket := socket s; session := session s;
     query := query s; lastToken := lastToken s; inflight := remove_one tok (inflight s);
     openSockets := openSockets s; effectSocket := effectSocket s;
     nextSocket := nextSocket s; connections := connections s |}.

Definition onLogin (tok : string) (o : LoginOutcome) (s : State) : State :=
  let s0 := settleLogin tok s in
  match o with
  | NetworkError => setAuthentication Guest s0
  | BadJson => setAuthentication Guest (routerReplace s0)
  | StatusCode c =>
      let s1 := routerReplace s0 in
      if decide (c = Some 401%Z)
      then setSession (removeItem "Authentication" (session s1)) (setAuthentication Guest s1)
      else setAuthentication User (setSession (setItem "Authentication" tok (session s1)) s1)
  end.

Inductive Event :=
| AuthEffect
| LoginResponse (tok : string) (o : LoginOutcome).

Inductive mstep : State -> Event -> State -> Prop :=
| mstep_effect s :
    lastToken s <> Some (query s) -> mstep s AuthEffect (authEffect s)
| mstep_login s tok o :
    tok ∈ inflight s -> mstep s (LoginResponse tok o) (onLogin tok o s).

Inductive reachable (l : Storage) (q : option string) : State -> Prop :=
| reachable_load : reachable l q (load l q)
| reachable_step s e s' : reachable l q s -> mstep s e s' -> reachable l q s'.

(** A sequence of events, each enabled in turn. *)
Inductive msteps : State -> list Event -> State -> Prop :=
| msteps_nil s : msteps s [] s
| msteps_cons s e s' es s'' : mstep s e s' -> msteps s' es s'' -> msteps s (e :: es) s''.

(** ** The socket invariant *)

(** While the user is a "user", exactly one connection is open, the one in
    [SocketContext]; while a guest, none. *)
Definition sock_inv (s : State) : Prop :=
  (authentication s = User ->
     exists id, socket s = Some id /\ effectSocket s = Some id /\ openSockets s = {[id]}) /\
  (authentication s = Guest -> effectSocket s = None /\ openSockets s = ∅).

Definition sock_view (s : State) :=
  (authentication s, socket s, effectSocket s, openSockets s).

Lemma sock_inv_view s s' : sock_view s' = sock_view s -> sock_inv s -> sock_inv s'.
Proof. unfold sock_view, sock_inv. intros [= -> -> -> ->]. done. Qed.

Lemma sock_inv_load l q : sock_inv (load l q).
Proof. split; [discriminate | done]. Qed.

Lemma sock_inv_setAuthentication a s : sock_inv s -> sock_inv (setAuthentication a s).
Proof.
  intros [HU HG]. unfold setAuthentication. case_decide as Ha; [done|].
  unfold socketEffect, cleanup. simpl.
  assert (Hc : effectSocket s = None /\ openSockets s = ∅ \/
               exists id, effectSocket s = Some id /\ openSockets s = {[id]}).
  { destruct (authentication s) eqn:E.
    - right. destruct (HU eq_refl) as (id & _ & ? & ?). eauto.
    - left. auto. }
  assert (Hempty : match effectSocket s with
                   | Some id => openSockets s ∖ {[id]} | None => openSockets s end = ∅).
  { destruct Hc as [[-> ->] | (id & -> & ->)]; [done | set_solver]. }
  case_decide as Hu; unfold sock_inv; simpl in *; rewrite Hempty.
  - split; [|congruence]. intros _. eexists. split_and!; [done|done|set_solver].
  - split; [congruence|done].
Qed.

Lemma sock_inv_onLogin tok o s : sock_inv s -> sock_inv (onLogin tok o s).
Proof.
  intros H. unfold onLogin. destruct o as [| |c]; [..|case_decide];
    repeat first [ apply sock_inv_setAuthentication
                 | eapply sock_inv_view; [reflexivity|] ]; exact H.
Qed.

Lemma sock_inv_mstep s e s' : sock_inv s -> mstep s e s' -> sock_inv s'.
Proof.
  intros H Hs. destruct Hs; [eapply sock_inv_view; [reflexivity|exact H] | by apply sock_inv_onLogin].
Qed.

Lemma reachable_sock_inv l q s : reachable l q s -> sock_inv s.
Proof. induction 1; eauto using sock_inv_load, sock_inv_mstep. Qed.

(** Only a login that makes the user a "user" changes the socket in state. *)
Lemma setAuthentication_socket a s :
  socket (setAuthentication a s) = socket s \/ authentication (setAuthentication a s) = User.
Proof.
  unfold setAuthentication. case_decide; [by left|].
  unfold socketEffect. case_decide; [by right | by left].
Qed.

Lemma mstep_socket s e s' :
  mstep s e s' -> socket s' = socket s \/ authentication s' = User.
Proof.
  intros Hs. destruct Hs as [s0 _|s0 tok o _]; [by left|]. unfold onLogin.
  destruct o as [| |c]; [..|case_decide];
    match goal with
    | |- context [setAuthentication ?a ?x] =>
        destruct (setAuthentication_socket a x) as [Hx|Hx];
        [left; cbn [socket setSession]; rewrite Hx; reflexivity
        |right; cbn [authentication setSession]; exact Hx]
    end.
Qed.

(** The connections of one answer's handler. *)
Lemma setAuthentication_connections a s :
  connections (setAuthentication a s) = connections s \/
  (a = User /\ connections (setAuthentication a s) = connections s ++ [(nextSocket s, authQuery s)]).
Proof.
  unfold setAuthentication. case_decide; [by left|].
  unfold socketEffect. case_decide as Hu; [right; split; [done|reflexivity] | by left].
Qed.

(** ** Properties *)

(** C4: in every state reachable from a page load, a
    "user" has exactly one open connection, the one [SocketContext]
    provides, and a guest has none open. *)
Theorem socket_invariant l q s : reachable l q s -> sock_inv s.
Proof. apply reachable_sock_inv. Qed.

(** C17: when a "user" becomes a guest, the
    socket effect's cleanup closes the connection but nothing resets the
    [socket] state: [SocketContext] keeps providing the closed socket. *)
Theorem stale_socket_after_logout l q s e s' :
  reachable l q s -> authentication s = User -> mstep s e s' ->
  authentication s' = Guest ->
  socket s' = socket s /\ exists id, socket s' = Some id /\ id ∉ openSockets s'.
Proof.
  intros Hr HU Hs HG.
  destruct (mstep_socket s e s' Hs) as [Hsock|]; [|congruence].
  destruct (proj1 (reachable_sock_inv l q s Hr) HU) as (id & Hid & _).
  destruct (proj2 (reachable_sock_inv l q s' (reachable_step l q s e s' Hr Hs)) HG) as [_ Ho].
  split; [done|]. exists id. rewrite Hsock, Ho. split; [done|set_solver].
Qed.

(** C15: an answer of [/user/login] whose body has
    any [statusCode] but 401 (a 403 or a 500, or none) stores the token,
    makes the user a "user" and clears the query token. *)
Theorem login_accepts_non401 tok c s :
  c <> Some 401%Z ->
  authentication (onLogin tok (StatusCode c) s) = User /\
  getItem "Authentication" (session (onLogin tok (StatusCode c) s)) = Some tok /\
  query (onLogin tok (StatusCode c) s) = None.
Proof.
  intros Hc. unfold onLogin. case_decide; [done|].
  unfold setAuthentication. case_decide as Ha.
  - simpl in *. rewrite <- Ha. split_and!; [done|apply getItem_setItem|done].
  - unfold socketEffect, cleanup. simpl.
    split_and!; [done|apply getItem_setItem|done].
Qed.

(** C16: a 401 body makes the user a guest, removes the
    stored token and clears the query token. *)
Theorem login_401_logs_out tok s :
  authentication (onLogin tok (StatusCode (Some 401%Z)) s) = Guest /\
  getItem "Authentication" (session (onLogin tok (StatusCode (Some 401%Z)) s)) = None /\
  query (onLogin tok (StatusCode (Some 401%Z)) s) = None.
Proof.
  unfold onLogin. case_decide; [|done]. simpl. split_and!; [|apply getItem_removeItem|].
  - unfold setAuthentication. case_decide; [done|]. unfold socketEffect. by case_decide.
  - unfold setAuthentication. case_decide; [done|]. unfold socketEffect. by case_decide.
Qed.

(** C28: a failed [/user/login] request makes
    the user a guest but leaves the stored token and the query token in
    place. *)
Theorem network_error_keeps_token tok s :
  authentication (onLogin tok NetworkError s) = Guest /\
  session (onLogin tok NetworkError s) = session s /\
  query (onLogin tok NetworkError s) = query s.
Proof.
  unfold onLogin, setAuthentication. simpl. case_decide as Ha; [by rewrite Ha|].
  unfold socketEffect. by case_decide.
Qed.

(** C27: a connection is only ever opened by the
    answer that accepts a token, and it carries that token. *)
Theorem socket_opened_by_login s e s' :
  mstep s e s' ->
  connections s' = connections s \/
  exists tok c, e = LoginResponse tok (StatusCode c) /\ c <> Some 401%Z /\
    connections s' = connections s ++ [(nextSocket s, tok)].
Proof.
  intros Hs. destruct Hs as [s0 _|s0 tok o _]; [by left|]. unfold onLogin.
  destruct o as [| |c]; [..|case_decide as Hc].
  - destruct (setAuthentication_connections Guest (settleLogin tok s0)) as [H|[H _]];
      [by left | done].
  - destruct (setAuthentication_connections Guest (routerReplace (settleLogin tok s0)))
      as [H|[H _]]; [by left | done].
  - destruct (setAuthentication_connections Guest (routerReplace (settleLogin tok s0)))
      as [H|[H _]]; [by left | done].
  - match goal with |- context [setAuthentication User ?x] =>
      destruct (setAuthentication_connections User x) as [H|[_ H]] end; [by left|].
    right. exists tok, c. split_and!; [done|done|]. rewrite H.
    unfold authQuery. simpl. by rewrite getItem_setItem.
Qed.

#[local] Opaque String.eqb.

(** C9: with an old token in [sessionStorage] and a new
    one in the URL, both are sent to [/user/login]; if the server accepts
    the new one and its answer arrives first, the 401 for the old one then
    logs the user out and deletes the accepted token, and the effect that
    [router.replace] triggers finds nothing left to send: the page settles
    as a guest with no token and nothing in flight. *)
Theorem accepted_token_lost old new :
  old <> "" -> new <> "" -> old <> new ->
  exists s,
    msteps (load (<["Authentication" := old]> ∅) (Some new))
      [AuthEffect; LoginResponse new (StatusCode None);
       LoginResponse old (StatusCode (Some 401%Z)); AuthEffect] s /\
    authentication s = Guest /\ getItem "Authentication" (session s) = None /\
    inflight s = [] /\ lastToken s = Some (query s).
Proof.
  intros Ho Hn Hon.
  apply String.eqb_neq in Ho, Hn, Hon as Hon'.
  eexists. split.
  - eapply msteps_cons; [apply mstep_effect; discriminate|].
    eapply msteps_cons; [apply mstep_login|].
    { unfold authEffect, storedToken, queryToken, getItem. simpl.
      rewrite lookup_insert_eq. simpl. rewrite Ho, Hn. set_solver. }
    eapply msteps_cons; [apply mstep_login|].
    { unfold onLogin, authEffect, storedToken, queryToken, getItem. simpl.
      rewrite lookup_insert_eq. simpl. rewrite Ho, Hn. simpl. rewrite Hon'. set_solver. }
    eapply msteps_cons; [apply mstep_effect|apply msteps_nil].
    unfold onLogin. simpl. discriminate.
  - unfold onLogin, authEffect, storedToken, queryToken, getItem, removeItem, setItem.
    simpl.
    rewrite lookup_insert_eq. simpl.
    rewrite Ho, Hn. simpl. rewrite Hon', String.eqb_refl, lookup_delete_eq.
    simpl. rewrite String.eqb_refl. split_and!; done.
Qed.

#[local] Transparent String.eqb.

(** ** Witnesses: the race of [accepted_token_lost] with concrete tokens *)

Definition race0 : State := load (<["Authentication" := "old-token"]> ∅) (Some "new-token").
Definition race1 : State := authEffect race0.
Definition race2 : State := onLogin "new-token" (StatusCode None) race1.
Definition race3 : State := onLogin "old-token" (StatusCode (Some 401%Z)) race2.

Lemma race1_mstep : mstep race0 AuthEffect race1.
Proof. apply mstep_effect. discriminate. Defined.

Lemma race2_mstep : mstep race1 (LoginResponse "new-token" (StatusCode None)) race2.
Proof. apply mstep_login. apply list_elem_of_In. vm_compute. auto. Defined.

Lemma race3_mstep : mstep race2 (LoginResponse "old-token" (StatusCode (Some 401%Z))) race3.
Proof. apply mstep_login. apply list_elem_of_In. vm_compute. auto. Defined.

Lemma race2_reachable :
  reachable (<["Authentication" := "old-token"]> ∅) (Some "new-token") race2.
Proof.
  eapply reachable_step; [eapply reachable_step; [apply reachable_load | apply race1_mstep]|].
  apply race2_mstep.
Defined.

Lemma socket_invariant_witness :
  authentication race2 = User /\ sock_inv race2.
Proof.
  split; [reflexivity|].
  apply (socket_invariant _ _ race2 race2_reachable).
Defined.

Lemma stale_socket_after_logout_witness :
  socket race3 = Some 0 /\ exists id, socket race3 = Some id /\ id ∉ openSockets race3.
Proof.
  destruct (stale_socket_after_logout _ _ race2 _ race3 race2_reachable
              (eq_refl User) race3_mstep (eq_refl Guest)) as [H1 H2].
  split; [reflexivity | exact H2].
Defined.

Lemma login_accepts_non401_witness :
  authentication (onLogin "tok" (StatusCode (Some 403%Z)) race0) = User /\
  getItem "Authentication" (session (onLogin "tok" (StatusCode (Some 403%Z)) race0)) = Some "tok" /\
  query (onLogin "tok" (StatusCode (Some 403%Z)) race0) = None.
Proof. apply (login_accepts_non401 "tok" (Some 403%Z) race0). discriminate. Defined.

Lemma socket_opened_by_login_witness :
  connections race2 = connections race1 \/
  exists tok c, LoginResponse "new-token" (StatusCode None) = LoginResponse tok (StatusCode c) /\
    c <> Some 401%Z /\ connections race2 = connections race1 ++ [(nextSocket race1, tok)].
Proof. exact (socket_opened_by_login race1 _ race2 race2_mstep). Defined.

Lemma accepted_token_lost_witness :
  exists s,
    msteps race0
      [AuthEffect; LoginResponse "new-token" (StatusCode None);
       LoginResponse "old-token" (StatusCode (Some 401%Z)); AuthEffect] s /\
    authentication s = Guest /\ getItem "Authentication" (session s) = None /\
    inflight s = [] /\ lastToken s = Some (query s).
Proof. apply (accepted_token_lost "old-token" "new-token"); discriminate. Defined.

End App.
