(* ===== verification/AppProgress.v ===== *)
(** * The shell's session protocol comes to rest ([src/pages/_app.tsx])

    [router.replace] (line 59) clears the query token, a dependency of the
    token effect (line 79), so every answer of [/user/login] can run the
    effect again, and every run sends new requests.  This file shows that
    this feedback is finite: the effect runs at most twice per page load,
    once for the query token of the load and once after the query is
    cleared.  At most three [/user/login] requests are ever sent: the
    stored and the query token, then the stored token again.  Every
    execution of [App.mstep] ends after at most five events.

    The argument is a measure that every step decreases.  It adds the
    effect runs still possible ([runs]), the requests they can still send
    ([sends]), and the requests in flight.  A step of the token effect uses
    up a run and the requests it sends.  An answer settles a request and
    can only clear the query, which never adds a run or a request. *)

From stdpp Require Import base list gmap strings.
From Stdlib Require Import ZArith Lia Wellfounded.
From S2P Require Import Prelude Js App.

Open Scope string_scope.
Open Scope list_scope.

Module AppProgress.
Import App.

(** ** The measure *)

(** Whether a query token is present, as a count. *)
Definition has_query (q : option string) : nat :=
  match q with Some _ => 1 | None => 0 end.

(** Whether the token effect is due: its token differs from its last run's. *)
Definition due (s : State) : nat :=
  if bool_decide (lastToken s = Some (query s)) then 0 else 1.

(** The effect runs still possible: the one that is due, and the one that
    [router.replace] will cause while a query token is present. *)
Definition runs (s : State) : nat := due s + has_query (query s).

(** The requests those runs can send: the stored and the query token for
    the run that is due, the stored token after [router.replace]. *)
Definition sends (s : State) : nat :=
  due s * (1 + has_query (query s)) + has_query (query s).

Definition measure (s : State) : nat := runs s + sends s + length (inflight s).

(** ** Lemmas *)

(** An answer's setters leave the effect's bookkeeping alone. *)
Lemma setAuthentication_frame a s :
  lastToken (setAuthentication a s) = lastToken s /\
  query (setAuthentication a s) = query s /\
  inflight (setAuthentication a s) = inflight s.
Proof.
  unfold setAuthentication. case_decide; [done|].
  unfold socketEffect. case_decide; done.
Qed.

Lemma onLogin_frame tok o s :
  lastToken (onLogin tok o s) = lastToken s /\
  inflight (onLogin tok o s) = remove_one tok (inflight s) /\
  (query (onLogin tok o s) = None \/ query (onLogin tok o s) = query s).
Proof.
  unfold onLogin. destruct o as [| |c]; [..|case_decide]; cbn [setSession];
    match goal with
    | |- context [setAuthentication ?a ?x] =>
        destruct (setAuthentication_frame a x) as (Hl & Hq & Hi)
    end; rewrite ?Hl, ?Hq, ?Hi; cbn; auto.
Qed.

Lemma length_remove_one tok l :
  tok ∈ l -> length (remove_one tok l) = length l - 1.
Proof.
  induction l as [|x l IH]; [by intros ?%elem_of_nil|]. simpl.
  destruct (String.eqb_spec x tok) as [->|Hne]; [lia|].
  intros [->|Hin]%elem_of_cons; [done|]. simpl. rewrite IH by done.
  destruct l; [by apply elem_of_nil in Hin | simpl; lia].
Qed.

Lemma elem_length {A} (x : A) l : x ∈ l -> 1 <= length l.
Proof. destruct l; [by intros ?%elem_of_nil | simpl; lia]. Qed.

Lemma length_authEffect s :
  length (inflight (authEffect s)) <= length (inflight s) + 1 + has_query (query s).
Proof.
  simpl. rewrite !length_app. unfold storedToken, queryToken.
  destruct (getItem _ _) as [v|]; [destruct (js_truthy _)|];
    destruct (query s) as [w|]; try destruct (js_truthy (Some w)); simpl; lia.
Qed.

(** Clearing the query never makes more runs or requests possible. *)
Lemma budget_clear_query lt q :
  (if bool_decide (lt = Some None) then 0 else 1) * 2 <=
  (if bool_decide (lt = Some q) then 0 else 1) * (2 + has_query q) + 2 * has_query q.
Proof. destruct q; repeat case_bool_decide; simplify_eq; simpl; lia. Qed.

(** Every step decreases the measure. *)
Lemma mstep_measure s e s' : mstep s e s' -> measure s' < measure s.
Proof.
  intros [s0 Hdue | s0 tok o Hin]; unfold measure, runs, sends, due.
  - pose proof (length_authEffect s0). cbn [lastToken query authEffect].
    rewrite bool_decide_eq_true_2 by done. rewrite bool_decide_eq_false_2 by done. lia.
  - pose proof (elem_length _ _ Hin).
    destruct (onLogin_frame tok o s0) as (-> & -> & [Hq | ->]);
      rewrite length_remove_one by done;
      [rewrite Hq; pose proof (budget_clear_query (lastToken s0) (query s0))|];
      simpl; repeat case_bool_decide; simpl in *; lia.
Qed.

Lemma msteps_measure s es s' : msteps s es s' -> length es + measure s' <= measure s.
Proof.
  induction 1 as [|s e s1 es s2 Hs _ IH]; [done|].
  pose proof (mstep_measure s e s1 Hs). simpl. lia.
Qed.

Lemma measure_load l q : measure (load l q) <= 5.
Proof.
  unfold measure, runs, sends, due. cbn.
  rewrite bool_decide_eq_false_2 by done. destruct q; simpl; lia.
Qed.

(** The requests sent so far and still to be sent stay within three. *)
Definition request_bound (s : State) : Prop := length (inflight s) + sends s <= 3.

Lemma request_bound_mstep s e s' : request_bound s -> mstep s e s' -> request_bound s'.
Proof.
  unfold request_bound, sends, due.
  intros Hb Hs. revert Hb. destruct Hs as [s0 Hdue | s0 tok o Hin]; intros Hb.
  - pose proof (length_authEffect s0). cbn [lastToken query authEffect] in *.
    repeat case_bool_decide; try done. lia.
  - pose proof (elem_length _ _ Hin).
    destruct (onLogin_frame tok o s0) as (-> & -> & [-> | ->]);
      rewrite length_remove_one by done;
      destruct (query s0); repeat case_bool_decide; simplify_eq; simpl in *; lia.
Qed.

(** ** Properties *)

(** C5: termination: the shell's protocol has no infinite execution.
    Whatever the answers of [/user/login] and their order, the token
    effect and the answers it causes come to rest: the steps of
    [App.mstep], read backwards, form a well-founded relation. *)
Theorem mstep_terminates : well_founded (fun s' s => exists e, mstep s e s').
Proof.
  apply (wf_incl _ _ (ltof _ measure)); [|apply well_founded_ltof].
  intros s' s [e He]. exact (mstep_measure s e s' He).
Qed.


(** C18: in every state reachable from a page load, at most three
    [/user/login] requests are in flight: the token effect's rerun after
    [router.replace] sends at most the stored token again. *)
Theorem inflight_at_most_three l q s : reachable l q s -> length (inflight s) <= 3.
Proof.
  intros Hr. enough (request_bound s) by (unfold request_bound in *; lia).
  induction Hr as [|s e s' _ IH Hs]; [|by apply (request_bound_mstep s e s')].
  unfold request_bound, sends, due. cbn.
  rewrite bool_decide_eq_false_2 by done. destruct q; simpl; lia.
Qed.

(** ** Witnesses: the race of [App.accepted_token_lost], in which the
    effect runs again after [router.replace] *)

(** After the first answer the query is gone: the effect runs again on
    the stored token, while the answer for ["old-token"] is in flight. *)
Definition rerun1 : State := authEffect race2.
Definition rerun2 : State := onLogin "old-token" (StatusCode (Some 401%Z)) rerun1.
Definition rerun3 : State := onLogin "new-token" (StatusCode None) rerun2.

Definition rerun_events : list Event :=
  [AuthEffect; LoginResponse "new-token" (StatusCode None); AuthEffect;
   LoginResponse "old-token" (StatusCode (Some 401%Z));
   LoginResponse "new-token" (StatusCode None)].

Lemma rerun1_mstep : mstep race2 AuthEffect rerun1.
Proof. apply mstep_effect. discriminate. Defined.

Lemma rerun2_mstep : mstep rerun1 (LoginResponse "old-token" (StatusCode (Some 401%Z))) rerun2.
Proof. apply mstep_login. vm_compute. left. Defined.

Lemma rerun3_mstep : mstep rerun2 (LoginResponse "new-token" (StatusCode None)) rerun3.
Proof. apply mstep_login. vm_compute. left. Defined.

Lemma rerun_msteps : msteps race0 rerun_events rerun3.
Proof.
  eapply msteps_cons; [apply race1_mstep|].
  eapply msteps_cons; [apply race2_mstep|].
  eapply msteps_cons; [apply rerun1_mstep|].
  eapply msteps_cons; [apply rerun2_mstep|].
  eapply msteps_cons; [apply rerun3_mstep|]. apply msteps_nil.
Defined.

Lemma rerun1_reachable :
  reachable (<["Authentication" := "old-token"]> ∅) (Some "new-token") rerun1.
Proof. eapply reachable_step; [apply race2_reachable | apply rerun1_mstep]. Defined.


Lemma inflight_at_most_three_witness :
  inflight rerun1 = ["old-token"; "new-token"] /\ length (inflight rerun1) <= 3.
Proof.
  split; [reflexivity|].
  apply (inflight_at_most_three (<["Authentication" := "old-token"]> ∅) (Some "new-token")).
  apply rerun1_reachable.
Defined.

End AppProgress.
