(* ===== verification/System.v ===== *)
(** * The shell and the chat room together, through [SocketContext]

    [MyApp] provides its [socket] state to the page through
    [SocketContext.Provider] ([src/pages/_app.tsx] line 110) and [ChatRoom]
    reads it with [useContext(SocketContext)] (ChatRoom.tsx line 46): every
    ["send_message"] the chat room emits goes to the socket the shell holds
    at that moment.  The interface between the two is the class
    [SocketContext]: the socket a provider offers, and whether a socket is
    open (a message emitted on a closed socket.io connection is not
    delivered).  The system's executions interleave the shell's steps
    ([App.mstep]) with the chat room's events, the chat room reading the
    shell's socket at each of its steps. *)

From stdpp Require Import base list gmap strings.
From Stdlib Require Import ZArith Lia.
From S2P Require Import Prelude Js ChatRoom App.

Open Scope string_scope.
Open Scope list_scope.

Module System.

(** What a provider of [SocketContext] offers its consumers. *)
Class SocketContext (A : Type) := {
  ctx_socket : A -> option nat;
  ctx_open : A -> nat -> bool
}.

#[export] Instance App_SocketContext : SocketContext App.State := {
  ctx_socket := App.socket;
  ctx_open s id := bool_decide (id ∈ App.openSockets s)
}.

(** An emission of the chat room is delivered when its socket is open at
    the moment it is emitted. *)
Definition delivered `{SocketContext A} (ctx : A) (e : ChatRoom.SocketId * string) : bool :=
  ctx_open ctx (fst e).

Record State := mkState { app : App.State; chat : ChatRoom.State }.

Inductive Event := AppEvent (e : App.Event) | ChatEvent (e : ChatRoom.Event).

Inductive sstep : State -> Event -> State -> Prop :=
| sstep_app s e a' :
    App.mstep (app s) e a' -> sstep s (AppEvent e) {| app := a'; chat := chat s |}
| sstep_chat s e :
    sstep s (ChatEvent e)
      {| app := app s; chat := ChatRoom.step (ctx_socket (app s)) (chat s) e |}.

(** A page load: the shell over its storage and query, the chat room
    mounted. *)
Definition load (l : Storage) (q : option string) : State :=
  {| app := App.load l q; chat := ChatRoom.init |}.

Inductive reachable (l : Storage) (q : option string) : State -> Prop :=
| reachable_load : reachable l q (load l q)
| reachable_step s e s' : reachable l q s -> sstep s e s' -> reachable l q s'.

(** ** Lemmas *)

Lemma reachable_app l q s : reachable l q s -> App.reachable l q (app s).
Proof.
  induction 1 as [|s e s' _ IH Hs]; [apply App.reachable_load|].
  destruct Hs; simpl; [eapply App.reachable_step; eauto | exact IH].
Qed.

Lemma chat_submit_outbox s now :
  ChatRoom.chat (chat s) <> "" ->
  ChatRoom.outbox (ChatRoom.step (ctx_socket (app s)) (chat s) (ChatRoom.Submit now)) =
  ChatRoom.outbox (chat s) ++ ChatRoom.emitted (App.socket (app s)) (ChatRoom.chat (chat s)).
Proof. intros H. by rewrite ChatRoom.onSubmit_nonempty. Qed.

(** ** Properties *)

(** C2: while the user is a "user", a chat
    submission is emitted on the socket the shell holds, and that socket
    is open: the message is delivered. *)
Theorem submit_while_user_delivered l q s now :
  reachable l q s -> App.authentication (app s) = App.User ->
  ChatRoom.chat (chat s) <> "" ->
  exists id,
    ChatRoom.outbox (ChatRoom.step (ctx_socket (app s)) (chat s) (ChatRoom.Submit now)) =
      ChatRoom.outbox (chat s) ++ [(id, ChatRoom.chat (chat s))] /\
    delivered (app s) (id, ChatRoom.chat (chat s)) = true.
Proof.
  intros Hr HU Hc.
  destruct (proj1 (App.reachable_sock_inv l q (app s) (reachable_app l q s Hr)) HU)
    as (id & Hid & _ & Ho).
  exists id. rewrite chat_submit_outbox, Hid by done. split; [done|].
  unfold delivered. simpl. rewrite Ho. apply bool_decide_eq_true. set_solver.
Qed.

(** C10: once a "user" has become a guest, the chat
    room still emits every submission on the socket of the context (the
    closed connection the shell never reset), so the message is shown with
    its spinner but not delivered. *)
Theorem submit_after_logout_lost l q s now id :
  reachable l q s -> App.authentication (app s) = App.Guest ->
  App.socket (app s) = Some id -> ChatRoom.chat (chat s) <> "" ->
  ChatRoom.outbox (ChatRoom.step (ctx_socket (app s)) (chat s) (ChatRoom.Submit now)) =
    ChatRoom.outbox (chat s) ++ [(id, ChatRoom.chat (chat s))] /\
  delivered (app s) (id, ChatRoom.chat (chat s)) = false.
Proof.
  intros Hr HG Hid Hc.
  destruct (proj2 (App.reachable_sock_inv l q (app s) (reachable_app l q s Hr)) HG) as [_ Ho].
  rewrite chat_submit_outbox, Hid by done. split; [done|].
  unfold delivered. simpl. rewrite Ho. apply bool_decide_eq_false. set_solver.
Qed.

(** ** Witnesses: the race of [App.accepted_token_lost], with a chat *)

Definition raceL : Storage := <["Authentication" := "old-token"]> ∅.
Definition raceQ : option string := Some "new-token".

Definition sys_user : State :=
  {| app := App.race2; chat := ChatRoom.setChat "hi" ChatRoom.init |}.
Definition sys_guest : State :=
  {| app := App.race3; chat := ChatRoom.setChat "hi" ChatRoom.init |}.

Lemma sys_user_reachable : reachable raceL raceQ sys_user.
Proof.
  apply (reachable_step _ _ {| app := App.race2; chat := ChatRoom.init |} (ChatEvent (ChatRoom.Input "hi"))).
  - apply (reachable_step _ _ {| app := App.race1; chat := ChatRoom.init |}
             (AppEvent (App.LoginResponse "new-token" (App.StatusCode None)))).
    + apply (reachable_step _ _ (load raceL raceQ) (AppEvent App.AuthEffect)).
      * apply reachable_load.
      * apply (sstep_app (load raceL raceQ)). apply App.race1_mstep.
    + apply (sstep_app {| app := App.race1; chat := ChatRoom.init |}). apply App.race2_mstep.
  - apply (sstep_chat {| app := App.race2; chat := ChatRoom.init |}).
Defined.

Lemma sys_guest_reachable : reachable raceL raceQ sys_guest.
Proof.
  apply (reachable_step _ _ sys_user (AppEvent (App.LoginResponse "old-token" (App.StatusCode (Some 401%Z))))).
  - apply sys_user_reachable.
  - apply (sstep_app sys_user). apply App.race3_mstep.
Defined.

Lemma submit_while_user_delivered_witness :
  exists id,
    ChatRoom.outbox (ChatRoom.step (ctx_socket (app sys_user)) (chat sys_user) (ChatRoom.Submit 5)) =
      ChatRoom.outbox (chat sys_user) ++ [(id, ChatRoom.chat (chat sys_user))] /\
    delivered (app sys_user) (id, ChatRoom.chat (chat sys_user)) = true.
Proof.
  apply (submit_while_user_delivered raceL raceQ sys_user 5 sys_user_reachable);
    [reflexivity | discriminate].
Defined.

Lemma submit_after_logout_lost_witness :
  ChatRoom.outbox (ChatRoom.step (ctx_socket (app sys_guest)) (chat sys_guest) (ChatRoom.Submit 6)) =
    [(0, "hi")] /\
  delivered (app sys_guest) (0, "hi") = false.
Proof.
  apply (submit_after_logout_lost raceL raceQ sys_guest 6 0 sys_guest_reachable);
    [reflexivity | reflexivity | discriminate].
Defined.

End System.
