(* ===== verification/Shell.v ===== *)
(** * What the application shell renders ([src/pages/_app.tsx], lines 108-123)

    [MyApp] renders the page inside three providers.  [SocketContext]
    carries the [socket] state, and [ThemeContext] carries the [theme]
    state.  [GlobalStyles] is rendered only when the theme is truthy
    ([theme && ...], line 113).  The page receives the authentication
    status and [toggleChangeTheme].  The themed buttons of the pages
    ([ThemedButton], [ThemedIconButton]) read [ThemeContext].  This file
    composes the shell's two parts ([App.State] and [Theme.State]) into
    the rendered view.  It then shows that the buttons and the page colours
    always agree, including in the first render before the mount effect,
    where there is neither. *)

From stdpp Require Import base list gmap strings.
From Stdlib Require Import ZArith Lia.
From S2P Require Import Prelude Js Theme App.

Open Scope string_scope.
Open Scope list_scope.

Module Shell.
Import Theme Themed.

(** The values the shell hands to what it renders. *)
Record AppView := mkAppView {
  socket_ctx : option App.SocketId;    (** [SocketContext.Provider value] *)
  theme_ctx : option ITheme;           (** [ThemeContext.Provider value] *)
  global_styles : option Palette;      (** [GlobalStyles], when rendered *)
  page_authentication : App.Auth       (** the page's [authentication] *)
}.

Section View.
Context (darkTheme lightTheme : Palette).

Definition renderApp (a : App.State) (t : Theme.State) : AppView :=
  {| socket_ctx := App.socket a;
     theme_ctx := theme t;
     global_styles := globalStyles darkTheme lightTheme <$> theme t;
     page_authentication := App.authentication a |}.

End View.

(** ** Properties *)

(** C39: in every render of the shell, whatever its session and theme
    state, the themed buttons of both kinds read the theme the shell
    provides and are outlined exactly when [GlobalStyles] paints the dark
    palette (the two palettes being different).  In the first render,
    before the mount effect, there is no [GlobalStyles] and every button is
    solid, whatever theme is stored. *)
Theorem themed_buttons_follow_styles darkTheme lightTheme a t :
  darkTheme <> lightTheme ->
  let v := renderApp darkTheme lightTheme a t in
  (variant (theme_ctx v) = Outline <-> global_styles v = Some darkTheme) /\
  iconVariant (theme_ctx v) = variant (theme_ctx v) /\
  (theme_ctx v = None -> global_styles v = None /\ variant (theme_ctx v) = Solid).
Proof.
  intros Hne v. subst v. unfold renderApp, variant, iconVariant, globalStyles. simpl.
  destruct (theme t) as [[|]|]; simpl; repeat case_decide; split_and!;
    try done; try split; congruence.
Qed.

Lemma themed_buttons_follow_styles_witness :
  variant (theme_ctx (renderApp (mkPalette "#1a202c" "#ffffff") (mkPalette "#ffffff" "#1a202c")
                        App.race2 (load (<["Theme" := "dark"]> ∅)))) = Solid.
Proof.
  apply (themed_buttons_follow_styles (mkPalette "#1a202c" "#ffffff") (mkPalette "#ffffff" "#1a202c")
           App.race2 (load (<["Theme" := "dark"]> ∅))); [discriminate|reflexivity].
Defined.

End Shell.
